(** * agent-deployer: templates, launch commands and the deployment sequence

    A shallow embedding of [agent_deployer/deploy.py] and
    [agent_deployer/cli.py].  Python text is [string] (one [ascii] per code
    point below 256), Python [int] is [Z], keyword-argument dictionaries are
    [gmap string value], and everything the program asks of the operating
    system (shell commands, the file system, the terminal) is answered by a
    [Host] whose answers may depend on all that happened before.  The bullet
    of the closing banner, the one character beyond Latin-1, is kept as its
    UTF-8 bytes. *)

From Stdlib Require Import ZArith Ascii Bool Lia.
From stdpp Require Import base strings pretty gmap.

Local Open Scope Z_scope.

(** ** The Python runtime the program relies on *)

Module Py.

(** Exceptions: the Python class and the text [str(e)] is built from. *)
Inductive exception : Type :=
| ValueError (msg : string)
| KeyError (key : string)
| RuntimeError (msg : string)
| OSError (msg : string)
| FileNotFoundError (msg : string)
| IndexError (msg : string)
| EOFError (msg : string)
| CalledProcessError (argv : list string) (returncode : Z)
| PermissionError (msg : string)
| UnicodeDecodeError (msg : string).

Inductive result (A : Type) : Type :=
| Ok (a : A)
| Raise (e : exception).
Arguments Ok {A} a.
Arguments Raise {A} e.

(** Python values that reach [str()] or the argument namespace. *)
Inductive value : Type :=
| NoneV
| Bool (b : bool)
| Str (s : string)
| Int (z : Z).

(** [str(int)]: decimal digits, a leading minus sign for negatives. *)
Definition str_int (z : Z) : string := pretty z.

Definition str (v : value) : string :=
  match v with
  | NoneV => "None"
  | Bool b => if b then "True" else "False"
  | Str s => s
  | Int z => str_int z
  end.

Definition char (n : nat) : ascii := ascii_of_nat n.
Definition chr (n : nat) : string := String (char n) "".

Definition newline : string := chr 10.
Definition dquote : string := chr 34.
Definition squote : string := chr 39.
Definition esc : string := chr 27.

(** A block of text given line by line, every line closed by a newline. *)
Definition text (ls : list string) : string :=
  foldr (fun l acc => l +:+ newline +:+ acc) "" ls.

Definition code (c : ascii) : nat := nat_of_ascii c.

Definition between (lo hi : nat) (c : ascii) : bool :=
  (lo <=? code c)%nat && (code c <=? hi)%nat.

(** [str.isspace] on one character: tab to carriage return, the four
    separators 28..31, space, and (in Latin-1) NEL and no-break space. *)
Definition isspace (c : ascii) : bool :=
  between 9 13 c || between 28 32 c
  || (code c =? 133)%nat || (code c =? 160)%nat.

Fixpoint lstrip (s : string) : string :=
  match s with
  | "" => ""
  | String c r => if isspace c then lstrip r else s
  end.

(** [s.rstrip()]: a character stays when it is not white space or when
    something that stays follows it. *)
Fixpoint rstrip (s : string) : string :=
  match s with
  | "" => ""
  | String c r =>
      match rstrip r with
      | "" => if isspace c then "" else String c ""
      | r' => String c r'
      end
  end.

Definition strip (s : string) : string := rstrip (lstrip s).

Fixpoint startswith (s p : string) : bool :=
  match p, s with
  | "", _ => true
  | String c p', String d s' => Ascii.eqb d c && startswith s' p'
  | String _ _, "" => false
  end.

Fixpoint endswith_char (s : string) (c : ascii) : bool :=
  match s with
  | "" => false
  | String d "" => Ascii.eqb d c
  | String _ r => endswith_char r c
  end.

Fixpoint contains_char (c : ascii) (s : string) : bool :=
  match s with
  | "" => false
  | String d r => Ascii.eqb d c || contains_char c r
  end.

(** [s.split(sep, 1)] for a one-character separator: the text before the
    first separator and the text after it, or [s] alone when there is none. *)
Fixpoint split1 (sep : ascii) (s : string) : list string :=
  match s with
  | "" => [""]
  | String c r =>
      if Ascii.eqb c sep then [""; r]
      else match split1 sep r with
           | [a] => [String c a]
           | a :: rest => String c a :: rest
           | [] => []
           end
  end.

(** [s.split()] with no argument: the maximal runs of non-space characters. *)
Fixpoint split_ws_go (cur : string) (s : string) : list string :=
  match s with
  | "" => match cur with "" => [] | _ => [cur] end
  | String c r =>
      if isspace c
      then match cur with "" => split_ws_go "" r | _ => cur :: split_ws_go "" r end
      else split_ws_go (cur +:+ String c "") r
  end.
Definition split_ws (s : string) : list string := split_ws_go "" s.

(** [sep.join(parts)] *)
Fixpoint join (sep : string) (parts : list string) : string :=
  match parts with
  | [] => ""
  | [p] => p
  | p :: rest => p +:+ sep +:+ join sep rest
  end.

(** [str.lower] on one character: the capital letters of ASCII and of
    Latin-1 (all of 192..222 but the multiplication sign). *)
Definition lower_char (c : ascii) : ascii :=
  if between 65 90 c || between 192 214 c || between 216 222 c
  then ascii_of_nat (code c + 32)
  else c.
Fixpoint lower (s : string) : string :=
  match s with
  | "" => ""
  | String c r => String (lower_char c) (lower r)
  end.

(** [posixpath.basename]: what follows the last slash. *)
Fixpoint basename (p : string) : string :=
  match p with
  | "" => ""
  | String c r =>
      if contains_char "/" r then basename r
      else if Ascii.eqb c "/" then r else p
  end.

(** [posixpath.join(a, b)] *)
Definition path_join (a b : string) : string :=
  if startswith b "/" then b
  else if String.eqb a "" || endswith_char a "/" then a +:+ b
  else a +:+ "/" +:+ b.

End Py.

(** ** [string.Template]

    The pattern of the class is [\$(?:(\$)|(id)|\{(id)\}|())] with
    [id = [_a-z][_a-z0-9]*] matched case-insensitively on ASCII, tried in
    that order at every dollar sign.  [scan] is the scanner of that pattern as
    a state machine over the template, [substitute] the replacement callback
    folded over what the scanner found, left to right. *)

Module Template.
Import Py.

Definition is_id_start (c : ascii) : bool :=
  Ascii.eqb c "_" || between 97 122 c || between 65 90 c.

Definition is_id_char (c : ascii) : bool :=
  is_id_start c || between 48 57 c.

Inductive token : Type :=
| Lit (c : ascii)            (* a character outside every match *)
| Escaped                    (* group [escaped]: two dollar signs *)
| Named (name : string)      (* group [named] *)
| Braced (name : string)     (* group [braced] *)
| Invalid (pos : nat).       (* group [invalid], [pos] is where it starts *)

Inductive mode : Type :=
| Text
| Dollar
| InNamed (acc : string)
| BraceOpen (at_ : nat)
| InBraced (at_ : nat) (acc : string).

(** [scan m i s]: [s] is the rest of the template, [i] the index of its first
    character.  A name is the longest run of identifier characters; a brace
    that is not closed right after a name makes the dollar sign invalid. *)
Fixpoint scan (m : mode) (i : nat) (s : string) : list token :=
  match s with
  | "" =>
      match m with
      | Text => []
      | Dollar => [Invalid i]
      | InNamed acc => [Named acc]
      | BraceOpen a | InBraced a _ => [Invalid a]
      end
  | String c r =>
      match m with
      | Text =>
          if Ascii.eqb c "$" then scan Dollar (S i) r
          else Lit c :: scan Text (S i) r
      | Dollar =>
          if Ascii.eqb c "$" then Escaped :: scan Text (S i) r
          else if is_id_start c then scan (InNamed (String c "")) (S i) r
          else if Ascii.eqb c "{" then scan (BraceOpen i) (S i) r
          else [Invalid i]
      | InNamed acc =>
          if is_id_char c then scan (InNamed (acc +:+ String c "")) (S i) r
          else if Ascii.eqb c "$" then Named acc :: scan Dollar (S i) r
          else Named acc :: Lit c :: scan Text (S i) r
      | BraceOpen a =>
          if is_id_start c then scan (InBraced a (String c "")) (S i) r
          else [Invalid a]
      | InBraced a acc =>
          if is_id_char c then scan (InBraced a (acc +:+ String c "")) (S i) r
          else if Ascii.eqb c "}" then Braced acc :: scan Text (S i) r
          else [Invalid a]
      end
  end.

Definition tokens (template : string) : list token := scan Text 0 template.

(** The keys a template asks for, in order of appearance. *)
Fixpoint placeholders (ts : list token) : list string :=
  match ts with
  | [] => []
  | Named k :: r | Braced k :: r => k :: placeholders r
  | _ :: r => placeholders r
  end.

Definition well_formed (ts : list token) : bool :=
  forallb (fun t => match t with Invalid _ => false | _ => true end) ts.

(** Line breaks of [str.splitlines]. *)
Definition is_linebreak (c : ascii) : bool :=
  between 10 13 c || between 28 30 c || (code c =? 133)%nat.

(** Line and column (both from 1) of the last character of [prefix], a
    carriage return followed by a line feed counting as one break. *)
Fixpoint line_col (prefix : string) (line col : nat) : nat * nat :=
  match prefix with
  | "" => (line, col)
  | String c r =>
      if is_linebreak c then
        if (code c =? 13)%nat && startswith r newline
        then line_col r line (S col)
        else line_col r (S line) 0
      else line_col r line (S col)
  end.

(** [Template._invalid] *)
Definition invalid_message (template : string) (i : nat) : string :=
  let '(lineno, colno) := line_col (String.substring 0 i template) 1 0 in
  "Invalid placeholder in string: line " +:+ str_int (Z.of_nat lineno)
  +:+ ", col " +:+ str_int (Z.of_nat colno).

Definition cons_text (s : string) (r : result string) : result string :=
  match r with
  | Ok out => Ok (s +:+ out)
  | Raise e => Raise e
  end.

Fixpoint convert (template : string) (ts : list token) (mapping : gmap string value)
  : result string :=
  match ts with
  | [] => Ok ""
  | Lit c :: r => cons_text (String c "") (convert template r mapping)
  | Escaped :: r => cons_text "$" (convert template r mapping)
  | Named k :: r | Braced k :: r =>
      match mapping !! k with
      | Some v => cons_text (str v) (convert template r mapping)
      | None => Raise (KeyError k)
      end
  | Invalid i :: _ => Raise (ValueError (invalid_message template i))
  end.

(** [Template(template).substitute] called with keyword arguments [mapping] *)
Definition substitute (template : string) (mapping : gmap string value)
  : result string :=
  convert template (tokens template) mapping.

End Template.

(** ** The host: what the operating system answers

    An [event] is something the program did to the outside world; the trace
    is the list of events so far, oldest first.  Every answer of the host is
    a function of the trace, so a command can change what later commands and
    file-system queries see. *)

Module Sys.
Import Py.

(** [subprocess.CompletedProcess] as the program reads it. *)
Record ExecutionResult : Type := {
  returncode : Z;
  stdout : string;
  stderr : string
}.

Inductive event : Type :=
| Print (line : string)
    (* print(line) *)
| Traceback (e : exception)
    (* traceback.print_exc() *)
| Shell (command : string) (r : result ExecutionResult)
    (* subprocess.run(command, shell=True, text=True, capture_output=True):
       the completed process, or what the call raised instead *)
| Spawn (argv : list string) (check : bool) (r : result ExecutionResult)
    (* subprocess.run(argv, ..., check=check), before the exit status is
       looked at: the completed process, or what the call raised instead *)
| TempWrite (path content : string)
    (* NamedTemporaryFile(mode='w', delete=False), written and closed *)
| Input (prompt : string) (answer : result string).
    (* input(prompt) *)

Definition trace : Type := list event.

Record Host : Type := {
  abspath : trace -> string -> string;           (* os.path.abspath *)
  isdir : trace -> string -> bool;               (* os.path.isdir *)
  isfile : trace -> string -> bool;              (* os.path.isfile *)
  path_exists : trace -> string -> bool;         (* os.path.exists *)
  read_text : trace -> string -> result string;  (* open(path, 'r'), all of it *)
  (* subprocess.run: the process is started, waited for and its output
     decoded; any of this may raise instead of giving a completed process
     (FileNotFoundError, PermissionError, UnicodeDecodeError, ...) *)
  run_shell : trace -> string -> result ExecutionResult;
  run_argv : trace -> list string -> result ExecutionResult;
  mktemp : trace -> result string;               (* name of a fresh temporary file *)
  read_input : trace -> string -> result string; (* input(prompt) *)
  signal_name : Z -> option string               (* signal.Signals(n).name *)
}.

(** Computations: the trace is threaded, an exception ends the sequence. *)
Definition M (A : Type) : Type := trace -> result A * trace.

Definition ret {A} (a : A) : M A := fun t => (Ok a, t).
Definition raise {A} (e : exception) : M A := fun t => (Raise e, t).
Definition bind {A B} (m : M A) (k : A -> M B) : M B :=
  fun t => match m t with
           | (Ok a, t') => k a t'
           | (Raise e, t') => (Raise e, t')
           end.
Definition emit (e : event) : M unit := fun t => (Ok tt, t ++ [e]).
Definition ask {A} (q : trace -> A) : M A := fun t => (Ok (q t), t).
Definition lift {A} (r : result A) : M A := fun t => (r, t).

(** [try: m except Exception as e: handler(e)] *)
Definition try_except {A} (m : M A) (handler : exception -> M A) : M A :=
  fun t => match m t with
           | (Ok a, t') => (Ok a, t')
           | (Raise e, t') => handler e t'
           end.

Definition print (line : string) : M unit := emit (Print line).

End Sys.

Notation "x <- m ;; k" := (Sys.bind m (fun x => k))
  (at level 100, m at next level, right associativity).
Notation "m ;;; k" := (Sys.bind m (fun _ => k))
  (at level 100, right associativity).

(** ** [agent_deployer/deploy.py] *)

Module Deploy.
Import Py Sys.

(** *** Templates for configuration files *)

Definition SYSTEMD_TEMPLATE : string := text [
  "[Unit]";
  "Description=$service_name service";
  "After=network.target";
  "";
  "[Service]";
  "User=$user";
  "Group=$group";
  "WorkingDirectory=$project_path";
  "ExecStart=$exec_start";
  "Restart=always";
  "RestartSec=5";
  "Environment=PATH=$venv_path/bin:$PATH";
  "$environment_vars";
  "";
  "[Install]";
  "WantedBy=multi-user.target"
].

Definition NGINX_TEMPLATE : string := text [
  "server {";
  "    listen 80;";
  "    server_name $domain;";
  "";
  "    location / {";
  "        proxy_pass http://localhost:$port;";
  "        proxy_set_header Host $host;";
  "        proxy_set_header X-Real-IP $remote_addr;";
  "        proxy_set_header X-Forwarded-For $proxy_add_x_forwarded_for;";
  "        proxy_set_header X-Forwarded-Proto $scheme;";
  "    }";
  "}"
].

Definition NGINX_SSL_TEMPLATE : string := text [
  "server {";
  "    listen 80;";
  "    server_name $domain;";
  "    return 301 https://$domain$request_uri;";
  "}";
  "";
  "server {";
  "    listen 443 ssl;";
  "    server_name $domain;";
  "";
  "    ssl_certificate /etc/letsencrypt/live/$domain/fullchain.pem;";
  "    ssl_certificate_key /etc/letsencrypt/live/$domain/privkey.pem;";
  "    ssl_protocols TLSv1.2 TLSv1.3;";
  "    ssl_prefer_server_ciphers on;";
  "    ssl_ciphers ECDHE-RSA-AES256-GCM-SHA512:DHE-RSA-AES256-GCM-SHA512:ECDHE-RSA-AES256-GCM-SHA384:DHE-RSA-AES256-GCM-SHA384;";
  "";
  "    location / {";
  "        proxy_pass http://localhost:$port;";
  "        proxy_set_header Host $host;";
  "        proxy_set_header X-Real-IP $remote_addr;";
  "        proxy_set_header X-Forwarded-For $proxy_add_x_forwarded_for;";
  "        proxy_set_header X-Forwarded-Proto $scheme;";
  "    }";
  "}"
].

Definition NGINX_FRONTEND_TEMPLATE : string := text [
  "server {";
  "    listen 80;";
  "    server_name $domain;";
  "";
  "    # API endpoints";
  "    location $api_url_prefix/ {";
  "        proxy_pass http://localhost:$port$api_url_prefix/;";
  "        proxy_set_header Host $host;";
  "        proxy_set_header X-Real-IP $remote_addr;";
  "        proxy_set_header X-Forwarded-For $proxy_add_x_forwarded_for;";
  "        proxy_set_header X-Forwarded-Proto $scheme;";
  "    }";
  "";
  "    # Frontend static files";
  "    location $frontend_url_prefix {";
  "        alias $frontend_path/;";
  "        try_files $uri $uri/ $frontend_url_prefix/index.html;";
  "        expires 1d;";
  "        add_header Cache-Control " +:+ dquote +:+ "public" +:+ dquote +:+ ";";
  "    }";
  "}"
].

Definition NGINX_FRONTEND_SSL_TEMPLATE : string := text [
  "server {";
  "    listen 80;";
  "    server_name $domain;";
  "    return 301 https://$domain$request_uri;";
  "}";
  "";
  "server {";
  "    listen 443 ssl;";
  "    server_name $domain;";
  "";
  "    ssl_certificate /etc/letsencrypt/live/$domain/fullchain.pem;";
  "    ssl_certificate_key /etc/letsencrypt/live/$domain/privkey.pem;";
  "    ssl_protocols TLSv1.2 TLSv1.3;";
  "    ssl_prefer_server_ciphers on;";
  "    ssl_ciphers ECDHE-RSA-AES256-GCM-SHA512:DHE-RSA-AES256-GCM-SHA512:ECDHE-RSA-AES256-GCM-SHA384:DHE-RSA-AES256-GCM-SHA384;";
  "";
  "    # API endpoints";
  "    location $api_url_prefix/ {";
  "        proxy_pass http://localhost:$port$api_url_prefix/;";
  "        proxy_set_header Host $host;";
  "        proxy_set_header X-Real-IP $remote_addr;";
  "        proxy_set_header X-Forwarded-For $proxy_add_x_forwarded_for;";
  "        proxy_set_header X-Forwarded-Proto $scheme;";
  "    }";
  "";
  "    # Frontend static files";
  "    location $frontend_url_prefix {";
  "        alias $frontend_path/;";
  "        try_files $uri $uri/ $frontend_url_prefix/index.html;";
  "        expires 1d;";
  "        add_header Cache-Control " +:+ dquote +:+ "public" +:+ dquote +:+ ";";
  "    }";
  "}"
].

(** *** The launch command *)

Definition _get_exec_start (framework project_path venv_path : string)
    (port workers timeout : Z) : result string :=
  if String.eqb framework "fastapi" then
    Ok (venv_path +:+ "/bin/uvicorn main:app --host 0.0.0.0 --port " +:+ str_int port
        +:+ " --workers " +:+ str_int workers
        +:+ " --timeout-keep-alive " +:+ str_int timeout)
  else if String.eqb framework "flask" then
    Ok (venv_path +:+ "/bin/gunicorn -w " +:+ str_int workers
        +:+ " -b 0.0.0.0:" +:+ str_int port
        +:+ " -t " +:+ str_int timeout +:+ " app:app")
  else if String.eqb framework "django" then
    let project_name := basename project_path in
    Ok (venv_path +:+ "/bin/gunicorn -w " +:+ str_int workers
        +:+ " -b 0.0.0.0:" +:+ str_int port
        +:+ " -t " +:+ str_int timeout
        +:+ " " +:+ project_name +:+ ".wsgi:application")
  else
    Raise (ValueError ("Unsupported framework: " +:+ framework)).

(** *** The environment file *)

(** Iterating over a file opened in text mode: a carriage return, alone or
    before a line feed, reads as a line feed; every line keeps its line feed,
    the last one may lack it. *)
Fixpoint iter_lines (cur : string) (s : string) : list string :=
  match s with
  | "" => match cur with "" => [] | _ => [cur] end
  | String c r =>
      if (code c =? 10)%nat then (cur +:+ newline) :: iter_lines "" r
      else if (code c =? 13)%nat then
        if startswith r newline then iter_lines cur r
        else (cur +:+ newline) :: iter_lines "" r
      else iter_lines (cur +:+ String c "") r
  end.

Definition file_lines (content : string) : list string := iter_lines "" content.

(** Python truth of a string and of a string that may be [None]. *)
Definition truthy (s : string) : bool := negb (String.eqb s "").
Definition given (o : option string) : bool :=
  match o with
  | Some s => truthy s
  | None => false
  end.
Definition the (o : option string) : string := default "" o.

(** The body of the loop over the lines: what one line adds to
    [environment_vars]. *)
Definition environment_line (line : string) : result string :=
  if truthy (strip line) && negb (startswith line "#") then
    match split1 "=" (strip line) with
    | [key; value] =>
        Ok ("Environment=" +:+ dquote +:+ key +:+ "=" +:+ value +:+ dquote +:+ newline)
    | _ => Raise (ValueError "not enough values to unpack (expected 2, got 1)")
    end
  else Ok "".

Fixpoint load_environment (environment_vars : string) (lines : list string)
  : result string :=
  match lines with
  | [] => Ok environment_vars
  | line :: rest =>
      match environment_line line with
      | Ok directive => load_environment (environment_vars +:+ directive) rest
      | Raise e => Raise e
      end
  end.

(** *** Substitution maps, as the keyword arguments of each call *)

Definition unit_mapping (service_name user group project_path exec_start
    venv_path environment_vars : string) : gmap string value :=
  <["service_name" := Str service_name]> (
  <["user" := Str user]> (
  <["group" := Str group]> (
  <["project_path" := Str project_path]> (
  <["exec_start" := Str exec_start]> (
  <["venv_path" := Str venv_path]> (
  <["environment_vars" := Str environment_vars]> ∅)))))).

Definition api_mapping (domain : string) (port : Z) : gmap string value :=
  <["domain" := Str domain]> (<["port" := Int port]> ∅).

Definition frontend_mapping (domain : string) (port : Z)
    (frontend_path api_url_prefix frontend_url_prefix : string)
  : gmap string value :=
  <["domain" := Str domain]> (
  <["port" := Int port]> (
  <["frontend_path" := Str frontend_path]> (
  <["api_url_prefix" := Str api_url_prefix]> (
  <["frontend_url_prefix" := Str frontend_url_prefix]> ∅)))).

(** The branch of [deploy_api] that picks the virtual-host template. *)
Definition select_template (has_frontend ssl_exists : bool) : string :=
  if has_frontend then
    if ssl_exists then NGINX_FRONTEND_SSL_TEMPLATE else NGINX_FRONTEND_TEMPLATE
  else
    if ssl_exists then NGINX_SSL_TEMPLATE else NGINX_TEMPLATE.

(** *** Talking to the host *)

Record Request : Type := {
  project_path : string;
  service_name : string;
  framework : string;
  workers : Z;
  timeout : Z;
  port : Z;
  venv_name : string;
  domain : option string;
  enable_db : bool;
  env_file : option string;
  verbose : bool;
  frontend_path : option string;
  frontend_url_prefix : string;
  api_url_prefix : string
}.

Section WithHost.
Variable h : Host.

Definition _log (message : string) (verbose important : bool) : M unit :=
  if important || verbose then
    if important
    then print (esc +:+ "[1m[agent-deployer]" +:+ esc +:+ "[0m " +:+ message)
    else print ("[agent-deployer] " +:+ message)
  else ret tt.

Definition _run_command (command : string) (verbose : bool) : M string :=
  _log ("Running: " +:+ command) verbose false ;;;
  answer <- ask (fun t => run_shell h t command) ;;
  emit (Shell command answer) ;;;
  result <- lift answer ;;
  if negb (returncode result =? 0)
  then raise (RuntimeError ("Command failed: " +:+ stderr result))
  else ret (strip (stdout result)).

(** [with tempfile.NamedTemporaryFile(mode='w', delete=False) as tmp] *)
Definition write_temp (content : string) : M string :=
  tmp_path <- (fun t => lift (mktemp h t) t) ;;
  emit (TempWrite tmp_path content) ;;;
  ret tmp_path.

Definition read_environment (project_path : string) (env_file : option string)
  : M string :=
  present <- (if given env_file
              then ask (fun t => isfile h t (path_join project_path (the env_file)))
              else ret false) ;;
  if present then
    _log ("Loading environment variables from " +:+ the env_file) false true ;;;
    content <- (fun t => lift (read_text h t (path_join project_path (the env_file))) t) ;;
    lift (load_environment "" (file_lines content))
  else ret "".

(** The block under [if domain:]; its value is [ssl_exists]. *)
Definition configure_nginx (a : Request) (domain : string) : M bool :=
  let verbose := a.(verbose) in
  let service_name := a.(service_name) in
  let port := a.(port) in
  _log ("Setting up Nginx configuration for domain: " +:+ domain) false true ;;;
  let nginx_file := "/etc/nginx/sites-available/" +:+ service_name in
  _log "Checking for existing SSL certificates" verbose false ;;;
  answer <- _run_command ("sudo test -d /etc/letsencrypt/live/" +:+ domain
                          +:+ " && echo 'yes' || echo 'no'") verbose ;;
  let ssl_exists := String.eqb answer "yes" in
  has_frontend <- (if given a.(frontend_path)
                   then ask (fun t => isdir h t (the a.(frontend_path)))
                   else ret false) ;;
  (if has_frontend then
     _log ("Frontend detected at " +:+ the a.(frontend_path)) false true ;;;
     _log ("Configuring with API at " +:+ a.(api_url_prefix)
           +:+ " and frontend at " +:+ a.(frontend_url_prefix)) false true
   else ret tt) ;;;
  nginx_content <-
    (if has_frontend then
       if ssl_exists then
         _log "SSL certificates found, configuring HTTPS with frontend" false true ;;;
         frontend <- ask (fun t => abspath h t (the a.(frontend_path))) ;;
         lift (Template.substitute NGINX_FRONTEND_SSL_TEMPLATE
                 (frontend_mapping domain port frontend
                    a.(api_url_prefix) a.(frontend_url_prefix)))
       else
         _log "No SSL certificates found, configuring HTTP with frontend" false true ;;;
         frontend <- ask (fun t => abspath h t (the a.(frontend_path))) ;;
         lift (Template.substitute NGINX_FRONTEND_TEMPLATE
                 (frontend_mapping domain port frontend
                    a.(api_url_prefix) a.(frontend_url_prefix)))
     else
       if ssl_exists then
         _log "SSL certificates found, configuring HTTPS" false true ;;;
         lift (Template.substitute NGINX_SSL_TEMPLATE (api_mapping domain port))
       else
         _log "No SSL certificates found, configuring HTTP only" false true ;;;
         lift (Template.substitute NGINX_TEMPLATE (api_mapping domain port))) ;;
  _log "Writing Nginx configuration file" verbose false ;;;
  tmp_path <- write_temp nginx_content ;;
  _run_command ("sudo mv " +:+ tmp_path +:+ " " +:+ nginx_file) verbose ;;;
  _run_command ("sudo chmod 644 " +:+ nginx_file) verbose ;;;
  let sites_enabled := "/etc/nginx/sites-enabled/" +:+ service_name in
  enabled <- ask (fun t => path_exists h t sites_enabled) ;;
  (if negb enabled then
     _log "Enabling Nginx site configuration" false true ;;;
     _run_command ("sudo ln -s " +:+ nginx_file +:+ " " +:+ sites_enabled) verbose ;;;
     ret tt
   else ret tt) ;;;
  _log "Validating and reloading Nginx configuration" false true ;;;
  _run_command "sudo nginx -t" verbose ;;;
  _run_command "sudo systemctl reload nginx" verbose ;;;
  (if truthy domain && negb ssl_exists then
     _log "Setting up SSL certificates with Certbot" false true ;;;
     _run_command ("sudo certbot --nginx -d " +:+ domain
                   +:+ " --non-interactive --agree-tos --email admin@" +:+ domain)
                  verbose ;;;
     _log "SSL certificates installed successfully" false true
   else ret tt) ;;;
  ret ssl_exists.

(** What [deploy_api] settles before it composes the unit: the resolved
    project path, the user, the group and the environment directives. *)
Definition prepare (a : Request) : M (string * string * string * string) :=
  let verbose := a.(verbose) in
  (* Validate inputs *)
  project_path <- ask (fun t => abspath h t a.(project_path)) ;;
  is_directory <- ask (fun t => isdir h t project_path) ;;
  if negb is_directory
  then raise (ValueError ("Project path does not exist: " +:+ project_path))
  else
  _log ("Deploying " +:+ a.(framework) +:+ " application from " +:+ project_path)
       false true ;;;
  (* Get current user and group *)
  _log "Getting current user and group information" verbose false ;;;
  user <- _run_command "whoami" verbose ;;
  group <- _run_command "id -gn" verbose ;;
  (* Prepare environment variables *)
  environment_vars <- read_environment project_path a.(env_file) ;;
  ret (project_path, user, group, environment_vars).

Definition deploy_api (a : Request) : M unit :=
  let verbose := a.(verbose) in
  let service_name := a.(service_name) in
  let framework := a.(framework) in
  let port := a.(port) in
  let workers := a.(workers) in
  prepared <- prepare a ;;
  let '(project_path, user, group, environment_vars) := prepared in
  (* Create systemd service file *)
  let venv_path := path_join project_path a.(venv_name) in
  exec_start <- lift (_get_exec_start framework project_path venv_path
                        port workers a.(timeout)) ;;
  _log ("Configuring service to run on port " +:+ str_int port +:+ " with "
        +:+ str_int workers +:+ " workers") false true ;;;
  systemd_content <-
    lift (Template.substitute SYSTEMD_TEMPLATE
            (unit_mapping service_name user group project_path exec_start
               venv_path environment_vars)) ;;
  let service_file := "/etc/systemd/system/" +:+ service_name +:+ ".service" in
  _log ("Creating systemd service file: " +:+ service_file) false true ;;;
  tmp_path <- write_temp systemd_content ;;
  _run_command ("sudo mv " +:+ tmp_path +:+ " " +:+ service_file) verbose ;;;
  _run_command ("sudo chmod 644 " +:+ service_file) verbose ;;;
  _log "Systemd service file created successfully" false true ;;;
  (* Create Nginx configuration if domain is provided *)
  ssl_exists <- (if given a.(domain)
                 then configure_nginx a (the a.(domain))
                 else ret false) ;;
  (* Enable and start the service *)
  _log "Enabling and starting the service" false true ;;;
  _run_command "sudo systemctl daemon-reload" verbose ;;;
  _run_command ("sudo systemctl enable " +:+ service_name) verbose ;;;
  _run_command ("sudo systemctl restart " +:+ service_name) verbose ;;;
  _log "Deployment completed successfully!" false true ;;;
  (* Print status information *)
  _log "Checking service status" false true ;;;
  status <- _run_command ("sudo systemctl status " +:+ service_name
                          +:+ " --no-pager") verbose ;;
  print (newline +:+ "--- Service Status ---" +:+ newline +:+ status +:+ newline
         +:+ "-------------------" +:+ newline) ;;;
  if given a.(domain) then
    _log ("Your API is now accessible at: http"
          +:+ (if ssl_exists then "s" else "") +:+ "://" +:+ the a.(domain))
         false true
  else
    _log ("Your API is now accessible at: http://server_ip:" +:+ str_int port)
         false true.

End WithHost.

End Deploy.

(** ** [agent_deployer/cli.py] *)

Module Cli.
Import Py Sys.

(** *** The argument parser

    How argparse cuts a command line into occurrences of the declared options
    (full names, unambiguous prefixes, [--opt=value], the help flag) and how
    [int] reads a number are library behaviour: [recognise] gives the
    occurrences in command-line order, each with the full option string and
    its argument if it takes one, or the exit status when the command line
    is refused at that level. *)

Inductive action : Type :=
| store (type_int : bool)
| store_true.

Record Argument : Type := {
  option_string : string;
  dest : string;
  required : bool;
  act : action;
  choices : option (list string);
  default_value : value
}.

Definition add_argument (option_string dest : string) (required : bool)
    (act : action) (choices : option (list string)) (default_value : value)
  : Argument :=
  Build_Argument option_string dest required act choices default_value.

Definition framework_choices : list string := ["flask"; "fastapi"; "django"].

Definition arguments : list Argument := [
  (* Required arguments *)
  add_argument "--project-path" "project_path" true (store false) None NoneV;
  add_argument "--service-name" "service_name" true (store false) None NoneV;
  add_argument "--framework" "framework" true (store false)
               (Some framework_choices) NoneV;
  add_argument "--port" "port" true (store true) None NoneV;
  add_argument "--venv-name" "venv_name" true (store false) None NoneV;
  (* Optional arguments *)
  add_argument "--workers" "workers" false (store true) None (Int 2);
  add_argument "--timeout" "timeout" false (store true) None (Int 120);
  add_argument "--domain" "domain" false (store false) None NoneV;
  add_argument "--enable-db" "enable_db" false store_true None (Bool false);
  add_argument "--env-file" "env_file" false (store false) None NoneV;
  add_argument "--verbose" "verbose" false store_true None (Bool false);
  (* Frontend options *)
  add_argument "--frontend-path" "frontend_path" false (store false) None NoneV;
  add_argument "--frontend-url-prefix" "frontend_url_prefix" false (store false)
               None (Str "/");
  add_argument "--api-url-prefix" "api_url_prefix" false (store false)
               None (Str "/api")
].

(** What [parse_args] returns once every check has passed. *)
Record Namespace : Type := {
  project_path : string;
  service_name : string;
  framework : string;
  port : Z;
  venv_name : string;
  workers : Z;
  timeout : Z;
  domain : option string;
  enable_db : bool;
  env_file : option string;
  verbose : bool;
  frontend_path : option string;
  frontend_url_prefix : string;
  api_url_prefix : string
}.

Definition exit_usage : Z := 2.

Section Parser.
Variable recognise : list string -> list (string * option string) + Z.
Variable int_of_string : string -> option Z.

Definition find_argument (flag : string) : option Argument :=
  List.find (fun a => String.eqb a.(option_string) flag) arguments.

Definition in_choices (a : Argument) (v : string) : bool :=
  match a.(choices) with
  | Some cs => existsb (String.eqb v) cs
  | None => true
  end.

(** One occurrence: convert the argument string, check it against the
    choices, set the attribute. *)
Definition take_action (ns : gmap string value)
    (occurrence : string * option string) : gmap string value + Z :=
  let '(flag, argument) := occurrence in
  match find_argument flag with
  | None => inr exit_usage
  | Some a =>
      match a.(act), argument with
      | store_true, None => inl (<[a.(dest) := Bool true]> ns)
      | store false, Some v =>
          if in_choices a v then inl (<[a.(dest) := Str v]> ns)
          else inr exit_usage
      | store true, Some v =>
          match int_of_string v with
          | Some n => inl (<[a.(dest) := Int n]> ns)
          | None => inr exit_usage
          end
      | _, _ => inr exit_usage
      end
  end.

Fixpoint take_actions (ns : gmap string value)
    (occurrences : list (string * option string)) : gmap string value + Z :=
  match occurrences with
  | [] => inl ns
  | o :: rest =>
      match take_action ns o with
      | inl ns' => take_actions ns' rest
      | inr status => inr status
      end
  end.

Definition defaults : gmap string value :=
  foldr (fun a ns => <[a.(dest) := a.(default_value)]> ns) ∅ arguments.

Definition attr_str (ns : gmap string value) (k : string) : option string :=
  match ns !! k with
  | Some (Str s) => Some s
  | _ => None
  end.
Definition attr_int (ns : gmap string value) (k : string) : option Z :=
  match ns !! k with
  | Some (Int z) => Some z
  | _ => None
  end.
Definition attr_bool (ns : gmap string value) (k : string) : bool :=
  match ns !! k with
  | Some (Bool b) => b
  | _ => false
  end.

(** The check of the required options, and the attributes by name. *)
Definition finish (ns : gmap string value) : Namespace + Z :=
  match attr_str ns "project_path", attr_str ns "service_name",
        attr_str ns "framework", attr_int ns "port", attr_str ns "venv_name",
        attr_int ns "workers", attr_int ns "timeout",
        attr_str ns "frontend_url_prefix", attr_str ns "api_url_prefix" with
  | Some project_path, Some service_name, Some framework, Some port,
    Some venv_name, Some workers, Some timeout,
    Some frontend_url_prefix, Some api_url_prefix =>
      inl {| project_path := project_path;
             service_name := service_name;
             framework := framework;
             port := port;
             venv_name := venv_name;
             workers := workers;
             timeout := timeout;
             domain := attr_str ns "domain";
             enable_db := attr_bool ns "enable_db";
             env_file := attr_str ns "env_file";
             verbose := attr_bool ns "verbose";
             frontend_path := attr_str ns "frontend_path";
             frontend_url_prefix := frontend_url_prefix;
             api_url_prefix := api_url_prefix |}
  | _, _, _, _, _, _, _, _, _ => inr exit_usage
  end.

Definition parse_args (argv : list string) : Namespace + Z :=
  match recognise argv with
  | inr status => inr status
  | inl occurrences =>
      match take_actions defaults occurrences with
      | inl ns => finish ns
      | inr status => inr status
      end
  end.

End Parser.

(** *** The commands *)

Definition repr_str (s : string) : string := squote +:+ s +:+ squote.
Definition repr_list (l : list string) : string :=
  "[" +:+ join ", " (map repr_str l) +:+ "]".

Fixpoint repeat_str (s : string) (n : nat) : string :=
  match n with
  | O => ""
  | S k => s +:+ repeat_str s k
  end.

Definition bullet : string := "•".

Section WithHost.
Variable h : Host.

(** [str(e)] *)
Definition str_exception (e : exception) : string :=
  match e with
  | ValueError msg | RuntimeError msg | OSError msg | FileNotFoundError msg
  | IndexError msg | EOFError msg | PermissionError msg
  | UnicodeDecodeError msg => msg
  | KeyError key => repr_str key
  | CalledProcessError argv status =>
      if status <? 0 then
        match signal_name h (- status) with
        | Some name =>
            "Command " +:+ squote +:+ repr_list argv +:+ squote
            +:+ " died with <Signals." +:+ name +:+ ": " +:+ str_int (- status) +:+ ">."
        | None =>
            "Command " +:+ squote +:+ repr_list argv +:+ squote
            +:+ " died with unknown signal " +:+ str_int (- status) +:+ "."
        end
      else
        "Command " +:+ squote +:+ repr_list argv +:+ squote
        +:+ " returned non-zero exit status " +:+ str_int status +:+ "."
  end.

Definition log (message : string) : M unit :=
  print (esc +:+ "[1m[agent-deployer]" +:+ esc +:+ "[0m " +:+ message).

(** [subprocess.run(argv, ..., check=check)] *)
Definition run (argv : list string) (check : bool) : M ExecutionResult :=
  answer <- ask (fun t => run_argv h t argv) ;;
  emit (Spawn argv check answer) ;;;
  completed <- lift answer ;;
  if check && negb (returncode completed =? 0)
  then raise (CalledProcessError argv (returncode completed))
  else ret completed.

Definition required_packages : list (string * string) := [
  ("nginx", "nginx");
  ("certbot", "certbot");
  ("python3-certbot-nginx", "python3-certbot-nginx")
].

(** One turn of the loop over [required_packages]. *)
Definition check_package (verbose : bool) (missing_packages : list string)
    (item : string * string) : M (list string) :=
  let '(package, install_name) := item in
  (if verbose
   then print ("[agent-deployer] Checking for " +:+ package +:+ "...")
   else ret tt) ;;;
  try_except
    (if String.eqb package "nginx" then
       run ["nginx"; "-v"] false ;;; ret missing_packages
     else if String.eqb package "certbot" then
       run ["certbot"; "--version"] false ;;; ret missing_packages
     else
       result <- run ["dpkg"; "-l"; install_name] false ;;
       if negb (returncode result =? 0)
       then ret (missing_packages ++ [install_name])
       else ret missing_packages)
    (fun e => match e with
              | FileNotFoundError _ => ret (missing_packages ++ [install_name])
              | _ => raise e
              end).

Fixpoint check_packages (verbose : bool) (missing_packages : list string)
    (items : list (string * string)) : M (list string) :=
  match items with
  | [] => ret missing_packages
  | item :: rest =>
      missing <- check_package verbose missing_packages item ;;
      check_packages verbose missing rest
  end.

Definition input (prompt : string) : M string :=
  answer <- ask (fun t => read_input h t prompt) ;;
  emit (Input prompt answer) ;;;
  lift answer.

Definition check_dependencies (verbose : bool) : M bool :=
  log "Checking for required system dependencies..." ;;;
  missing_packages <- check_packages verbose [] required_packages ;;
  match missing_packages with
  | _ :: _ =>
      log ("The following required packages are missing: "
           +:+ join ", " missing_packages) ;;;
      answer <- input "Would you like to install them now? (y/n): " ;;
      let install := strip (lower answer) in
      if String.eqb install "y" then
        try_except
          (log "Updating package lists..." ;;;
           run ["sudo"; "apt-get"; "update"] true ;;;
           log ("Installing missing packages: "
                +:+ join ", " missing_packages +:+ "...") ;;;
           run (["sudo"; "apt-get"; "install"; "-y"] ++ missing_packages) true ;;;
           log "Dependencies installed successfully!" ;;;
           ret true)
          (fun e => match e with
                    | CalledProcessError _ _ =>
                        log ("Error installing dependencies: " +:+ str_exception e) ;;;
                        ret false
                    | _ => raise e
                    end)
      else
        log "Please install the required dependencies manually and try again." ;;;
        ret false
  | [] =>
      log "All required dependencies are installed." ;;;
      ret true
  end.

Definition request_of (args : Namespace) : Deploy.Request :=
  {| Deploy.project_path := args.(project_path);
     Deploy.service_name := args.(service_name);
     Deploy.framework := args.(framework);
     Deploy.workers := args.(workers);
     Deploy.timeout := args.(timeout);
     Deploy.port := args.(port);
     Deploy.venv_name := args.(venv_name);
     Deploy.domain := args.(domain);
     Deploy.enable_db := args.(enable_db);
     Deploy.env_file := args.(env_file);
     Deploy.verbose := args.(verbose);
     Deploy.frontend_path := args.(frontend_path);
     Deploy.frontend_url_prefix := args.(frontend_url_prefix);
     Deploy.api_url_prefix := args.(api_url_prefix) |}.

(** What follows the virtual-environment check inside [try]. *)
Definition deploy_and_report (args : Namespace) : M Z :=
  Deploy.deploy_api h (request_of args) ;;;
  (* Display information about where to access the application *)
  completed <- run ["hostname"; "-I"] false ;;
  server_ip <- match split_ws (strip (stdout completed)) with
               | first :: _ => ret first
               | [] => raise (IndexError "list index out of range")
               end ;;
  print (newline +:+ repeat_str "=" 60) ;;;
  print "  DEPLOYMENT SUCCESSFUL" ;;;
  print (repeat_str "=" 60) ;;;
  let extra := Deploy.given args.(frontend_path)
               && negb (String.eqb args.(api_url_prefix) "/") in
  (if Deploy.given args.(domain) then
     let domain := Deploy.the args.(domain) in
     log "Your application is now available at:" ;;;
     live <- ask (fun t => path_exists h t ("/etc/letsencrypt/live/" +:+ domain)) ;;
     let protocol := if live then "https" else "http" in
     print ("  " +:+ bullet +:+ " " +:+ protocol +:+ "://" +:+ domain) ;;;
     if extra then
       print ("  " +:+ bullet +:+ " API: " +:+ protocol +:+ "://" +:+ domain
              +:+ args.(api_url_prefix)) ;;;
       print ("  " +:+ bullet +:+ " Frontend: " +:+ protocol +:+ "://" +:+ domain
              +:+ args.(frontend_url_prefix))
     else ret tt
   else
     log "Your application is now available at:" ;;;
     print ("  " +:+ bullet +:+ " http://" +:+ server_ip +:+ ":" +:+ str_int args.(port)) ;;;
     if extra then
       print ("  " +:+ bullet +:+ " API: http://" +:+ server_ip +:+ ":"
              +:+ str_int args.(port) +:+ args.(api_url_prefix)) ;;;
       print ("  " +:+ bullet +:+ " Frontend: http://" +:+ server_ip +:+ ":"
              +:+ str_int args.(port) +:+ args.(frontend_url_prefix))
     else ret tt) ;;;
  print (newline +:+ "To check service status: sudo systemctl status "
         +:+ args.(service_name)) ;;;
  print ("To view logs: sudo journalctl -u " +:+ args.(service_name) +:+ " -f") ;;;
  print (repeat_str "=" 60 +:+ newline) ;;;
  log "Deployment completed successfully!" ;;;
  ret 0.

(** The body of [try]. *)
Definition attempt (args : Namespace) : M Z :=
  log ("Starting deployment process for " +:+ args.(framework) +:+ " application") ;;;
  (* Check for required dependencies *)
  dependencies <- check_dependencies args.(verbose) ;;
  if negb dependencies then ret 1 else
  (* Check if Python virtual environment exists *)
  let venv_path := path_join args.(project_path) args.(venv_name) in
  found <- ask (fun t => isdir h t venv_path) ;;
  if negb found then
    log ("Error: Virtual environment " +:+ squote +:+ args.(venv_name) +:+ squote
         +:+ " not found in " +:+ args.(project_path)) ;;;
    log "Please create the virtual environment first and install your application dependencies." ;;;
    ret 1
  else
  log ("Virtual environment found at " +:+ venv_path) ;;;
  deploy_and_report args.

(** [except Exception as e] *)
Definition report_error (args : Namespace) (e : exception) : M Z :=
  log ("Error: " +:+ str_exception e) ;;;
  (if args.(verbose) then emit (Traceback e) else ret tt) ;;;
  ret 1.

Definition banner : M unit :=
  print (newline +:+ repeat_str "=" 60) ;;;
  print "  AGENT DEPLOYER - Deploy Python APIs with ease" ;;;
  print (repeat_str "=" 60 +:+ newline).

Definition orchestrate (args : Namespace) : M Z :=
  try_except (attempt args) (report_error args).

Variable recognise : list string -> list (string * option string) + Z.
Variable int_of_string : string -> option Z.

(** [sys.exit(main())]: the exit status of the process and the trace it
    leaves, [before] being what happened on the host before it started. *)
Definition main (argv : list string) (before : trace) : Z * trace :=
  match banner before with
  | (_, t) =>
      match parse_args recognise int_of_string argv with
      | inr status => (status, t)
      | inl args =>
          match orchestrate args t with
          | (Ok status, t') => (status, t')
          | (Raise _, t') => (1, t')
          end
      end
  end.

End WithHost.

End Cli.

(** * Specification

    What the statements below are phrased with: the readings of the text
    of the program, the classes of events, and the judgements on runs. *)

Import Py Template Sys Deploy.
Local Open Scope Z_scope.

(** White space only. *)
Fixpoint all_space (s : string) : bool :=
  match s with
  | "" => true
  | String c r => isspace c && all_space r
  end.

(** The test of the loop: the stripped line is not empty and the line as
    read does not start with [#]. *)
Definition is_assignment (line : string) : bool :=
  truthy (strip line) && negb (startswith line "#").

(** What [key, value = ...] raises on a list of one element. *)
Definition unpack_error : exception :=
  ValueError "not enough values to unpack (expected 2, got 1)".

(** The line added for the stripped assignment [key=value]. *)
Definition directive (assignment : string) : string :=
  "Environment=" +:+ dquote +:+ assignment +:+ dquote +:+ newline.

(** The directives of the assignments among [lines], in order. *)
Definition directives (lines : list string) : string :=
  foldr (fun l out => directive (strip l) +:+ out) ""
        (List.filter is_assignment lines).

(** The file of the example: two assignments, a comment, an empty line. *)
Definition example_env_file : string :=
  text ["A=1"; "# comment"; ""; "B=two=three"].

(** The templates of the program. *)
Definition templates : list string :=
  [SYSTEMD_TEMPLATE; NGINX_TEMPLATE; NGINX_SSL_TEMPLATE;
   NGINX_FRONTEND_TEMPLATE; NGINX_FRONTEND_SSL_TEMPLATE].

(** The first key asked for that is not among [keys], if the scanner gets
    that far without an invalid placeholder. *)
Fixpoint first_missing (keys : list string) (ts : list token) : option string :=
  match ts with
  | [] => None
  | Named k :: r | Braced k :: r =>
      if existsb (String.eqb k) keys then first_missing keys r else Some k
  | Invalid _ :: _ => None
  | _ :: r => first_missing keys r
  end.

(** The keyword arguments of the three kinds of call. *)
Definition unit_keys : list string :=
  ["service_name"; "user"; "group"; "project_path"; "exec_start"; "venv_path";
   "environment_vars"].
Definition api_keys : list string := ["domain"; "port"].
Definition frontend_keys : list string :=
  ["domain"; "port"; "frontend_path"; "api_url_prefix"; "frontend_url_prefix"].

(** The keyword arguments that go with the template picked for
    [has_frontend]. *)
Definition nginx_mapping (has_frontend : bool) (domain : string) (port : Z)
    (frontend_path api_url_prefix frontend_url_prefix : string)
  : gmap string value :=
  if has_frontend
  then frontend_mapping domain port frontend_path api_url_prefix frontend_url_prefix
  else api_mapping domain port.

(** Output for the user: a printed line or a traceback. *)
Definition is_report (e : event) : bool :=
  match e with
  | Print _ | Traceback _ => true
  | _ => false
  end.

(** A command whose exit status the program insists on, and that returned
    something else than zero. *)
Definition command_failed (e : event) : bool :=
  match e with
  | Shell _ (Ok r) => negb (returncode r =? 0)
  | Spawn _ true (Ok r) => negb (returncode r =? 0)
  | _ => false
  end.

(** Anything but a failed command. *)
Definition quiet (e : event) : bool := negb (command_failed e).

(** A file comes into being or is put in place: a temporary file is
    written, or a command moves, links or changes the mode of a file. *)
Definition is_write (e : event) : bool :=
  match e with
  | TempWrite _ _ => true
  | Shell command _ =>
      startswith command "sudo mv " || startswith command "sudo ln "
      || startswith command "sudo chmod "
  | _ => false
  end.

(** What [deploy_api] does before it composes the unit. *)
Definition harmless (e : event) : bool :=
  match e with
  | Print _ => true
  | Shell command _ => String.eqb command "whoami" || String.eqb command "id -gn"
  | _ => false
  end.

(** Nothing but reports follows the first failed command. *)
Fixpoint halted (events : list event) : bool :=
  match events with
  | [] => true
  | e :: rest => if command_failed e then forallb is_report rest else halted rest
  end.

(** A result that tells of a failure: an exception, or a value [bad]
    marks as one. *)
Definition failure {A} (bad : A -> bool) (r : result A) : bool :=
  match r with
  | Ok a => bad a
  | Raise _ => true
  end.

(** No value marks a failure. *)
Definition never {A} (a : A) : bool := false.

(** Whatever the history, [m] adds only [ok] events to it. *)
Definition emits {A} (ok : event -> bool) (m : M A) : Prop :=
  forall t, exists new, snd (m t) = t ++ new /\ forallb ok new = true.

(** [m] always ends in an exception. *)
Definition raises {A} (m : M A) : Prop :=
  forall t, exists e, fst (m t) = Raise e.

(** The values [m] returns satisfy [P]. *)
Definition returns {A} (P : A -> Prop) (m : M A) : Prop :=
  forall t a, fst (m t) = Ok a -> P a.

(** [m] adds a trace in which the first failed command is followed by reports
    only, and a failed command makes the result a failure. *)
Definition halting {A} (bad : A -> bool) (m : M A) : Prop :=
  forall t, exists new,
    snd (m t) = t ++ new /\ halted new = true
    /\ (existsb command_failed new = true -> failure bad (fst (m t)) = true).

(** An exit status other than 0. *)
Definition exit_bad (status : Z) : bool := negb (status =? 0).

(** A line written by [log]. *)
Definition logged (message : string) : event :=
  Print (esc +:+ "[1m[agent-deployer]" +:+ esc +:+ "[0m " +:+ message).

(** The first line of the try block. *)
Definition started (args : Cli.Namespace) : event :=
  logged ("Starting deployment process for " +:+ args.(Cli.framework) +:+ " application").

(** The line that follows a successful check of the virtual environment. *)
Definition venv_found (args : Cli.Namespace) : event :=
  logged ("Virtual environment found at "
          +:+ path_join args.(Cli.project_path) args.(Cli.venv_name)).

(** The two lines printed when the virtual environment is not there. *)
Definition venv_missing (args : Cli.Namespace) : list event :=
  [logged ("Error: Virtual environment " +:+ squote +:+ args.(Cli.venv_name)
           +:+ squote +:+ " not found in " +:+ args.(Cli.project_path));
   logged "Please create the virtual environment first and install your application dependencies."].

(** What the handler of [main] prints for [e]. *)
Definition error_report (h : Host) (args : Cli.Namespace) (e : exception) : list event :=
  logged ("Error: " +:+ Cli.str_exception h e)
  :: (if args.(Cli.verbose) then [Traceback e] else []).

(** The framework attribute is unset or one of the choices. *)
Definition framework_checked (ns : gmap string value) : Prop :=
  forall v, ns !! "framework" = Some v ->
            v = NoneV \/ exists s, v = Str s /\ In s Cli.framework_choices.

(** The run ends in an exception, having done only [ok] things. *)
Definition stops {A} (ok : event -> bool) (m : M A) : Prop :=
  forall t, exists e new, m t = (Raise e, t ++ new) /\ forallb ok new = true.

Definition no_write (e : event) : bool := negb (is_write e).

Definition supported_frameworks : list string := ["fastapi"; "flask"; "django"].

(** ** Sample hosts and command lines *)

Definition completed (status : Z) (out : string) : ExecutionResult :=
  {| returncode := status; stdout := out; stderr := "" |}.

(** A host on which every command succeeds and every path is there. *)
Definition willing_host : Host := {|
  abspath := fun _ p => p;
  isdir := fun _ _ => true;
  isfile := fun _ _ => true;
  path_exists := fun _ _ => true;
  read_text := fun _ _ => Ok (text ["A=1"; "B=two=three"]);
  run_shell := fun _ _ => Ok (completed 0 (text ["deploy"]));
  run_argv := fun _ _ => Ok (completed 0 (text ["10.0.0.7"]));
  mktemp := fun _ => Ok "/tmp/tmpq3x9";
  read_input := fun _ _ => Ok "y";
  signal_name := fun _ => None
|}.

(** The same host, except that [whoami] exits with status 1. *)
Definition anonymous_host : Host := {|
  abspath := fun _ p => p;
  isdir := fun _ _ => true;
  isfile := fun _ _ => true;
  path_exists := fun _ _ => true;
  read_text := fun _ _ => Ok (text ["A=1"; "B=two=three"]);
  run_shell := fun _ command =>
    if String.eqb command "whoami" then Ok (completed 1 "")
    else Ok (completed 0 (text ["deploy"]));
  run_argv := fun _ _ => Ok (completed 0 (text ["10.0.0.7"]));
  mktemp := fun _ => Ok "/tmp/tmpq3x9";
  read_input := fun _ _ => Ok "y";
  signal_name := fun _ => None
|}.

(** The line that announces the reading of the environment file. *)
Definition loading (env_file : string) : event :=
  logged ("Loading environment variables from " +:+ env_file).

(** The line printed once the launch command is settled. *)
Definition configuring (port workers : Z) : event :=
  logged ("Configuring service to run on port " +:+ str_int port +:+ " with "
          +:+ str_int workers +:+ " workers").

(** The willing host with the file of the example as its environment file. *)
Definition example_host : Host := {|
  abspath := fun _ p => p;
  isdir := fun _ _ => true;
  isfile := fun _ _ => true;
  path_exists := fun _ _ => true;
  read_text := fun _ _ => Ok example_env_file;
  run_shell := fun _ _ => Ok (completed 0 (text ["deploy"]));
  run_argv := fun _ _ => Ok (completed 0 (text ["10.0.0.7"]));
  mktemp := fun _ => Ok "/tmp/tmpq3x9";
  read_input := fun _ _ => Ok "y";
  signal_name := fun _ => None
|}.

(** Option strings spelled in full, each followed by its argument. *)
Fixpoint sample_recognise (argv : list string) : list (string * option string) + Z :=
  match argv with
  | [] => inl []
  | flag :: rest =>
      if String.eqb flag "--verbose" || String.eqb flag "--enable-db" then
        match sample_recognise rest with
        | inl occurrences => inl ((flag, None) :: occurrences)
        | inr status => inr status
        end
      else
        match rest with
        | argument :: rest' =>
            match sample_recognise rest' with
            | inl occurrences => inl ((flag, Some argument) :: occurrences)
            | inr status => inr status
            end
        | [] => inr 2
        end
  end.

(** Plain decimal numerals. *)
Fixpoint sample_digits (acc : Z) (s : string) : option Z :=
  match s with
  | "" => Some acc
  | String c r =>
      if between 48 57 c
      then sample_digits (10 * acc + Z.of_nat (code c - 48)) r
      else None
  end.
Definition sample_int (s : string) : option Z :=
  match s with
  | "" => None
  | _ => sample_digits 0 s
  end.

Definition sample_argv : list string :=
  ["--project-path"; "/srv/shop"; "--service-name"; "shop";
   "--framework"; "flask"; "--port"; "8000"; "--venv-name"; "venv";
   "--domain"; "shop.example.org"].

Definition sample_args : Cli.Namespace := {|
  Cli.project_path := "/srv/shop";
  Cli.service_name := "shop";
  Cli.framework := "flask";
  Cli.port := 8000;
  Cli.venv_name := "venv";
  Cli.workers := 2;
  Cli.timeout := 120;
  Cli.domain := Some "shop.example.org";
  Cli.enable_db := false;
  Cli.env_file := None;
  Cli.verbose := false;
  Cli.frontend_path := None;
  Cli.frontend_url_prefix := "/";
  Cli.api_url_prefix := "/api"
|}.

Definition sample_unit_mapping : gmap string value :=
  unit_mapping "shop" "deploy" "deploy" "/srv/shop"
    "/srv/shop/venv/bin/gunicorn -w 2 -b 0.0.0.0:8000 -t 120 app:app"
    "/srv/shop/venv" "".

(** What the sample command line does on the host where [whoami] fails. *)
Definition anonymous_run : result Z * trace :=
  Eval vm_compute in Cli.orchestrate anonymous_host sample_args [].

(** ** For the further properties *)

(** A mapping that also gives nginx's own variables, each as its own
    dollar-sign spelling. *)
Definition sample_nginx_mapping : gmap string value :=
  <["host" := Str "$host"]> (
  <["remote_addr" := Str "$remote_addr"]> (
  <["proxy_add_x_forwarded_for" := Str "$proxy_add_x_forwarded_for"]> (
  <["scheme" := Str "$scheme"]> (api_mapping "shop.example.org" 8000)))).

(** The text of [NGINX_TEMPLATE] rendered with [sample_nginx_mapping]. *)
Definition sample_nginx_text : string :=
  Eval vm_compute in
    match substitute NGINX_TEMPLATE sample_nginx_mapping with
    | Ok out => out
    | Raise _ => ""
    end.

(** No carriage return and no line feed. *)
Definition one_line (s : string) : bool :=
  negb (contains_char (char 13) s) && negb (contains_char (char 10) s).

(** A block of text whose lines end in carriage return and line feed. *)
Definition crlf_text (ls : list string) : string :=
  foldr (fun l acc => l +:+ chr 13 +:+ newline +:+ acc) "" ls.

(** Every assignment line has its [=]. *)
Definition well_formed_lines (lines : list string) : bool :=
  forallb (fun l => implb (is_assignment l) (contains_char "=" l)) lines.

(** A command run with [sudo]. *)
Definition is_install (e : event) : bool :=
  match e with
  | Spawn argv _ _ => String.eqb (hd "" argv) "sudo"
  | _ => false
  end.

(** What probing for a package does: a printed line, or a command other
    than [sudo] whose exit status is not insisted on. *)
Definition is_probe (e : event) : bool :=
  match e with
  | Print _ => true
  | Spawn argv check _ => negb check && negb (String.eqb (hd "" argv) "sudo")
  | _ => false
  end.

(** The user is not asked. *)
Definition no_prompt (e : event) : bool :=
  match e with
  | Input _ _ => false
  | _ => true
  end.

(** A host on which every program is found, [nginx -v] and
    [certbot --version] exit with status 1 and [dpkg -l] with status 0. *)
Definition grumpy_host : Host := {|
  abspath := fun _ p => p;
  isdir := fun _ _ => true;
  isfile := fun _ _ => true;
  path_exists := fun _ _ => true;
  read_text := fun _ _ => Ok (text ["A=1"; "B=two=three"]);
  run_shell := fun _ _ => Ok (completed 0 (text ["deploy"]));
  run_argv := fun _ argv =>
    if String.eqb (hd "" argv) "dpkg" then Ok (completed 0 "")
    else Ok (completed 1 "");
  mktemp := fun _ => Ok "/tmp/tmpq3x9";
  read_input := fun _ _ => Ok "y";
  signal_name := fun _ => None
|}.

(** The program is not there: what [except FileNotFoundError] catches. *)
Definition not_found (e : exception) : bool :=
  match e with
  | FileNotFoundError _ => true
  | _ => false
  end.

(** The three commands the dependency check probes with. *)
Definition probe_commands : list (list string) :=
  [["nginx"; "-v"]; ["certbot"; "--version"];
   ["dpkg"; "-l"; "python3-certbot-nginx"]].

(** How probing ended: with the list of missing packages, some of
    [candidates] added to [missing] in order, or with the exception [e]
    that the last probe raised and that does not say "not found". *)
Definition probed (missing candidates : list string) (probes : list event)
    (r : result (list string)) : Prop :=
  match r with
  | Ok found => exists added, found = missing ++ added /\ sublist added candidates
  | Raise e =>
      not_found e = false
      /\ exists pre argv, probes = pre ++ [Spawn argv false (Raise e)]
  end.



(** The value one occurrence of an option stores, when the occurrence is
    in order: no argument for a switch, an argument among the choices for
    a text option, a numeral for a number option. *)
Definition stored (int_of_string : string -> option Z) (a : Cli.Argument)
    (argument : option string) : option value :=
  match a.(Cli.act), argument with
  | Cli.store_true, None => Some (Bool true)
  | Cli.store false, Some v => if Cli.in_choices a v then Some (Str v) else None
  | Cli.store true, Some v =>
      match int_of_string v with
      | Some n => Some (Int n)
      | None => None
      end
  | _, _ => None
  end.

(** An occurrence the parser lets through. *)
Definition acceptable (int_of_string : string -> option Z)
    (occurrence : string * option string) : bool :=
  match Cli.find_argument occurrence.1 with
  | Some a =>
      match stored int_of_string a occurrence.2 with
      | Some _ => true
      | None => false
      end
  | None => false
  end.

Definition required_flags : list string :=
  map Cli.option_string (List.filter Cli.required Cli.arguments).

(** The occurrences in the sample command line. *)
Definition sample_occurrences : list (string * option string) :=
  [("--project-path", Some "/srv/shop"); ("--service-name", Some "shop");
   ("--framework", Some "flask"); ("--port", Some "8000");
   ("--venv-name", Some "venv"); ("--domain", Some "shop.example.org")].

Definition is_traceback (e : event) : bool :=
  match e with
  | Traceback _ => true
  | _ => false
  end.






(** * Proofs *)

(** ** Text *)

Lemma app_nil_l (b : string) : "" +:+ b = b.
Proof. reflexivity. Qed.

Lemma app_cons c (a b : string) : String c a +:+ b = String c (a +:+ b).
Proof. reflexivity. Qed.

Lemma app_assoc_s (a b c : string) : (a +:+ b) +:+ c = a +:+ b +:+ c.
Proof.
  induction a as [|x a IH]; [done|]. rewrite !app_cons. by rewrite IH.
Qed.

Lemma app_empty_r (a : string) : a +:+ "" = a.
Proof. induction a as [|x a IH]; [done|]. rewrite app_cons. by rewrite IH. Qed.

Lemma contains_char_app c a b :
  contains_char c (a +:+ b) = contains_char c a || contains_char c b.
Proof.
  induction a as [|x a IH]; [done|].
  rewrite app_cons. simpl. rewrite IH. by rewrite orb_assoc.
Qed.

Lemma split1_without sep s :
  contains_char sep s = false -> split1 sep s = [s].
Proof.
  induction s as [|c s IH]; simpl; [done|].
  intros [Hc Hs]%orb_false_elim. rewrite Hc, (IH Hs). done.
Qed.

Lemma split1_with sep s :
  contains_char sep s = true ->
  exists k v, split1 sep s = [k; v] /\ s = k +:+ String sep v
              /\ contains_char sep k = false.
Proof.
  induction s as [|c s IH]; simpl; [done|].
  destruct (Ascii.eqb c sep) eqn:Hc; simpl.
  - apply Ascii.eqb_eq in Hc as ->. intros _. by exists "", s.
  - intros (k & v & -> & -> & Hk)%IH.
    exists (String c k), v. rewrite app_cons. simpl. by rewrite Hc, Hk.
Qed.

Lemma split1_first sep k v :
  contains_char sep k = false -> split1 sep (k +:+ String sep v) = [k; v].
Proof.
  induction k as [|c k IH]; rewrite ?app_nil_l, ?app_cons; simpl.
  - by rewrite Ascii.eqb_refl.
  - intros [Hc Hk]%orb_false_elim. by rewrite Hc, (IH Hk).
Qed.

Lemma contains_char_lstrip c s :
  isspace c = false -> contains_char c (lstrip s) = contains_char c s.
Proof.
  intros Hc. induction s as [|x s IH]; simpl; [done|].
  destruct (isspace x) eqn:Hx; simpl; [|done].
  rewrite IH. destruct (Ascii.eqb x c) eqn:E; [|done].
  apply Ascii.eqb_eq in E as ->. congruence.
Qed.

Lemma contains_char_rstrip c s :
  isspace c = false -> contains_char c (rstrip s) = contains_char c s.
Proof.
  intros Hc. induction s as [|x s IH]; simpl; [done|].
  rewrite <- IH.
  destruct (rstrip s) as [|y r] eqn:E; simpl.
  - destruct (isspace x) eqn:Hx; simpl.
    + destruct (Ascii.eqb x c) eqn:E'; [|done].
      apply Ascii.eqb_eq in E' as ->. congruence.
    + by rewrite orb_false_r.
  - done.
Qed.

Lemma contains_char_strip c s :
  isspace c = false -> contains_char c (strip s) = contains_char c s.
Proof.
  intros Hc. unfold strip.
  by rewrite contains_char_rstrip, contains_char_lstrip.
Qed.

Lemma lstrip_space_app ws s :
  all_space ws = true -> lstrip (ws +:+ s) = lstrip s.
Proof.
  induction ws as [|c ws IH]; [done|]. rewrite app_cons.
  simpl. intros [Hc Hws]%andb_true_iff. rewrite Hc. by apply IH.
Qed.

Lemma rstrip_keeps c s :
  isspace c = false -> exists r, rstrip (String c s) = String c r.
Proof.
  intros Hc. simpl. destruct (rstrip s); rewrite ?Hc; eauto.
Qed.

Lemma truthy_spec s : truthy s = true <-> s <> "".
Proof.
  unfold truthy. rewrite negb_true_iff. split.
  - intros H ->. by rewrite String.eqb_refl in H.
  - intros H. by apply String.eqb_neq.
Qed.

(** ** The environment file *)

Lemma environment_line_spec line :
  environment_line line =
    if is_assignment line then
      if contains_char "=" line then Ok (directive (strip line))
      else Raise unpack_error
    else Ok "".
Proof.
  unfold environment_line, is_assignment.
  destruct (truthy (strip line) && negb (startswith line "#")); [|done].
  rewrite <- (contains_char_strip "=" line) by done.
  destruct (contains_char "=" (strip line)) eqn:E.
  - apply split1_with in E as (k & v & -> & -> & _).
    unfold directive. by rewrite !app_assoc_s.
  - by rewrite (split1_without _ _ E).
Qed.

Lemma load_environment_spec lines : forall acc,
  (forall l, In l lines -> is_assignment l = true -> contains_char "=" l = true) ->
  load_environment acc lines = Ok (acc +:+ directives lines).
Proof.
  induction lines as [|line rest IH]; intros acc Hall.
  - unfold directives; simpl. by rewrite app_empty_r.
  - simpl. rewrite environment_line_spec.
    unfold directives. simpl List.filter.
    destruct (is_assignment line) eqn:Ha.
    + rewrite (Hall line) by (by left || done).
      rewrite IH by (intros; apply Hall; [by right | done]).
      simpl. by rewrite app_assoc_s.
    + by rewrite app_empty_r, IH by (intros; apply Hall; [by right | done]).
Qed.

Lemma load_environment_failure lines : forall acc e,
  load_environment acc lines = Raise e -> e = unpack_error.
Proof.
  induction lines as [|line rest IH]; intros acc e; simpl; [done|].
  rewrite environment_line_spec.
  destruct (is_assignment line); [destruct (contains_char "=" line)|]; eauto.
  by intros [= <-].
Qed.

Lemma load_environment_bad_line lines line : forall acc,
  In line lines -> is_assignment line = true -> contains_char "=" line = false ->
  load_environment acc lines = Raise unpack_error.
Proof.
  induction lines as [|l rest IH]; intros acc; simpl; [done|].
  intros [-> | Hin] Ha Hc.
  - rewrite environment_line_spec, Ha, Hc. done.
  - destruct (environment_line l) eqn:E.
    + by apply IH.
    + pose proof (load_environment_failure [l] acc e) as H. simpl in H.
      rewrite E in H. by rewrite (H eq_refl).
Qed.

Lemma is_assignment_true line :
  strip line <> "" -> startswith line "#" = false -> is_assignment line = true.
Proof.
  intros H1 H2. unfold is_assignment. rewrite H2.
  by apply truthy_spec in H1 as ->.
Qed.

Lemma is_assignment_indented ws rest :
  ws <> "" -> all_space ws = true -> is_assignment (ws +:+ "#" +:+ rest) = true.
Proof.
  intros Hne Hws. apply is_assignment_true.
  - unfold strip. rewrite lstrip_space_app by done.
    change ("#" +:+ rest) with (String "#" rest). simpl lstrip.
    destruct (rstrip_keeps "#" rest eq_refl) as [r ->]. done.
  - destruct ws as [|c ws]; [done|]. rewrite app_cons.
    simpl in Hws. apply andb_true_iff in Hws as [Hc _].
    simpl.
    destruct (Ascii.eqb c "#") eqn:E; [|done].
    apply Ascii.eqb_eq in E as ->. vm_compute in Hc. discriminate.
Qed.

(** ** Templates *)

Lemma convert_missing_key template ts (mapping : gmap string value) k :
  In k (placeholders ts) -> mapping !! k = None ->
  match convert template ts mapping with
  | Ok _ => False
  | Raise (KeyError k') => mapping !! k' = None /\ In k' (placeholders ts)
  | Raise (ValueError _) => well_formed ts = false
  | Raise _ => False
  end.
Proof.
  intros Hin Hk. induction ts as [|t ts IH]; [done|].
  destruct t as [c| |name|name|pos]; simpl in *.
  - specialize (IH Hin). destruct (convert template ts mapping) as [|[]]; simpl; tauto.
  - specialize (IH Hin). destruct (convert template ts mapping) as [|[]]; simpl; tauto.
  - destruct (mapping !! name) eqn:E; [|by auto].
    destruct Hin as [-> | Hin]; [congruence|]. specialize (IH Hin).
    destruct (convert template ts mapping) as [|[]]; simpl; tauto.
  - destruct (mapping !! name) eqn:E; [|by auto].
    destruct Hin as [-> | Hin]; [congruence|]. specialize (IH Hin).
    destruct (convert template ts mapping) as [|[]]; simpl; tauto.
  - done.
Qed.

Lemma convert_first_missing template keys ts (mapping : gmap string value) k :
  (forall k', In k' keys -> is_Some (mapping !! k')) ->
  first_missing keys ts = Some k -> mapping !! k = None ->
  convert template ts mapping = Raise (KeyError k).
Proof.
  intros Hkeys. induction ts as [|t ts IH]; [done|].
  assert (forall name, existsb (String.eqb name) keys = true ->
                       is_Some (mapping !! name)) as Hpresent.
  { intros name (k' & Hin & ->%String.eqb_eq)%existsb_exists. by apply Hkeys. }
  destruct t as [c| |name|name|pos]; simpl; intros Hfirst Hk.
  - by rewrite IH.
  - by rewrite IH.
  - destruct (existsb (String.eqb name) keys) eqn:E.
    + destruct (Hpresent name E) as [v ->]. by rewrite IH.
    + injection Hfirst as ->. by rewrite Hk.
  - destruct (existsb (String.eqb name) keys) eqn:E.
    + destruct (Hpresent name E) as [v ->]. by rewrite IH.
    + injection Hfirst as ->. by rewrite Hk.
  - done.
Qed.

Lemma unit_mapping_keys sn u g pp es vp ev k :
  In k unit_keys -> is_Some (unit_mapping sn u g pp es vp ev !! k).
Proof.
  unfold unit_keys, unit_mapping. simpl.
  intros H. repeat (destruct H as [<- | H]; [by simplify_map_eq|]). done.
Qed.

Lemma systemd_render_fails sn u g pp es vp ev :
  substitute SYSTEMD_TEMPLATE (unit_mapping sn u g pp es vp ev)
  = Raise (KeyError "PATH").
Proof.
  apply (convert_first_missing _ unit_keys).
  - intros k. apply unit_mapping_keys.
  - vm_compute. reflexivity.
  - unfold unit_mapping. by simplify_map_eq.
Qed.

Lemma api_mapping_keys d p k : In k api_keys -> is_Some (api_mapping d p !! k).
Proof.
  unfold api_keys, api_mapping. simpl.
  intros H. repeat (destruct H as [<- | H]; [by simplify_map_eq|]). done.
Qed.

Lemma frontend_mapping_keys d p f a u k :
  In k frontend_keys -> is_Some (frontend_mapping d p f a u !! k).
Proof.
  unfold frontend_keys, frontend_mapping. simpl.
  intros H. repeat (destruct H as [<- | H]; [by simplify_map_eq|]). done.
Qed.

Lemma nginx_render_fails has_frontend ssl_exists d p f a u :
  substitute (select_template has_frontend ssl_exists)
             (nginx_mapping has_frontend d p f a u)
  = Raise (KeyError (if ssl_exists then "request_uri" else "host")).
Proof.
  destruct has_frontend, ssl_exists; simpl.
  - apply (convert_first_missing _ frontend_keys);
      [intros k; apply frontend_mapping_keys | by vm_compute
      | unfold frontend_mapping; by simplify_map_eq].
  - apply (convert_first_missing _ frontend_keys);
      [intros k; apply frontend_mapping_keys | by vm_compute
      | unfold frontend_mapping; by simplify_map_eq].
  - apply (convert_first_missing _ api_keys);
      [intros k; apply api_mapping_keys | by vm_compute
      | unfold api_mapping; by simplify_map_eq].
  - apply (convert_first_missing _ api_keys);
      [intros k; apply api_mapping_keys | by vm_compute
      | unfold api_mapping; by simplify_map_eq].
Qed.

Lemma templates_well_formed template :
  In template templates -> well_formed (tokens template) = true.
Proof.
  unfold templates. simpl.
  intros H. repeat (destruct H as [<- | H]; [by vm_compute|]). done.
Qed.

Lemma basename_no_slash p : contains_char "/" (basename p) = false.
Proof.
  induction p as [|c p IH]; simpl; [done|].
  destruct (contains_char "/" p) eqn:E; [done|].
  destruct (Ascii.eqb c "/") eqn:Ec; [done|]. simpl. by rewrite Ec, E.
Qed.

Lemma basename_suffix p :
  exists d, p = d +:+ basename p /\ (d = "" \/ endswith_char d "/" = true).
Proof.
  induction p as [|c p (d & Hp & Hd)]; simpl.
  - exists "". auto.
  - destruct (contains_char "/" p) eqn:E.
    + exists (String c d). rewrite app_cons, <- Hp. split; [done|right].
      destruct Hd as [-> | Hd].
      * rewrite app_nil_l in Hp. rewrite Hp, basename_no_slash in E. done.
      * simpl. destruct d; [done|]. done.
    + destruct (Ascii.eqb c "/") eqn:Ec.
      * apply Ascii.eqb_eq in Ec as ->. exists "/". split; [done|]. by right.
      * exists "". auto.
Qed.

(** ** Events and traces *)

(** ** Rules *)

Section Emits.
Context {A B : Type} (ok : event -> bool).

Lemma emits_ret (a : A) : emits ok (ret a).
Proof. intros t. exists []. by rewrite app_nil_r. Qed.

Lemma emits_raise e : emits ok (@raise A e).
Proof. intros t. exists []. by rewrite app_nil_r. Qed.

Lemma emits_ask (q : trace -> A) : emits ok (ask q).
Proof. intros t. exists []. by rewrite app_nil_r. Qed.

Lemma emits_lift (r : result A) : emits ok (lift r).
Proof. intros t. exists []. by rewrite app_nil_r. Qed.

Lemma emits_query (q : trace -> result A) : emits ok (fun t => lift (q t) t).
Proof. intros t. exists []. by rewrite app_nil_r. Qed.

Lemma emits_bind (m : M A) (k : A -> M B) :
  emits ok m -> (forall a, emits ok (k a)) -> emits ok (bind m k).
Proof.
  intros Hm Hk t. destruct (Hm t) as (n1 & E1 & F1). unfold bind.
  destruct (m t) as [[a|e] t1]; simpl in E1; subst t1.
  - destruct (Hk a (t ++ n1)) as (n2 & E2 & F2).
    exists (n1 ++ n2). rewrite E2, app_assoc, forallb_app, F1, F2. done.
  - by exists n1.
Qed.

Lemma emits_try (m : M A) (handler : exception -> M A) :
  emits ok m -> (forall e, emits ok (handler e)) -> emits ok (try_except m handler).
Proof.
  intros Hm Hk t. destruct (Hm t) as (n1 & E1 & F1). unfold try_except.
  destruct (m t) as [[a|e] t1]; simpl in E1; subst t1.
  - by exists n1.
  - destruct (Hk e (t ++ n1)) as (n2 & E2 & F2).
    exists (n1 ++ n2). rewrite E2, app_assoc, forallb_app, F1, F2. done.
Qed.

End Emits.

Lemma emits_emit ok e : ok e = true -> emits ok (emit e).
Proof. intros H t. exists [e]. simpl. by rewrite H. Qed.

Section Raises.
Context {A B : Type}.

Lemma returns_ret (P : A -> Prop) a : P a -> returns P (ret a).
Proof. intros H t a' [= <-]. done. Qed.

Lemma returns_raises (P : A -> Prop) (m : M A) : raises m -> returns P m.
Proof. intros Hm t a E. destruct (Hm t) as [e E']. congruence. Qed.

Lemma returns_bind (P : B -> Prop) (m : M A) (k : A -> M B) :
  (forall a, returns P (k a)) -> returns P (bind m k).
Proof.
  intros Hk t b. unfold bind. destruct (m t) as [[a|e'] t1]; [apply Hk|done].
Qed.

End Raises.

(** ** Traces that stop at the first failed command *)

Lemma reports_quiet new :
  forallb is_report new = true -> existsb command_failed new = false.
Proof.
  induction new as [|e new IH]; simpl; [done|].
  intros [He Hn]%andb_true_iff. rewrite (IH Hn). by destruct e.
Qed.

Lemma halted_clean new : existsb command_failed new = false -> halted new = true.
Proof.
  induction new as [|e new IH]; simpl; [done|].
  intros [-> Hn]%orb_false_elim. auto.
Qed.

Lemma halted_app_clean n1 n2 :
  existsb command_failed n1 = false -> halted (n1 ++ n2) = halted n2.
Proof.
  induction n1 as [|e n1 IH]; simpl; [done|].
  intros [-> Hn]%orb_false_elim. auto.
Qed.

Lemma halted_app_reports n1 n2 :
  halted n1 = true -> forallb is_report n2 = true -> halted (n1 ++ n2) = true.
Proof.
  intros H1 H2. induction n1 as [|e n1 IH]; simpl in *.
  - by apply halted_clean, reports_quiet.
  - destruct (command_failed e); [|auto]. by rewrite forallb_app, H1, H2.
Qed.

Lemma halted_stop new : halted new = true ->
  forall pre e post, new = pre ++ e :: post -> command_failed e = true ->
  forallb is_report post = true /\ existsb command_failed pre = false.
Proof.
  intros H pre. revert new H.
  induction pre as [|x pre IH]; intros new H e post -> He; simpl in *.
  - by rewrite He in H.
  - destruct (command_failed x) eqn:Hx.
    + rewrite forallb_app in H. apply andb_true_iff in H as [_ H].
      simpl in H. apply andb_true_iff in H as [H _]. by destruct e.
    + by apply (IH _ H e post).
Qed.

Lemma emits_quiet_clean new :
  forallb quiet new = true -> existsb command_failed new = false.
Proof.
  induction new as [|e new IH]; simpl; [done|]. unfold quiet at 1.
  intros [->%negb_true_iff Hn]%andb_true_iff. auto.
Qed.

Section Halting.
Context {A B : Type}.

Lemma halting_of_emits (bad : A -> bool) (m : M A) : emits quiet m -> halting bad m.
Proof.
  intros Hm t. destruct (Hm t) as (new & E & F%emits_quiet_clean).
  exists new. split; [done|]. split; [by apply halted_clean|]. congruence.
Qed.

Lemma halting_bind_gen (badA : A -> bool) (badB : B -> bool)
    (m : M A) (k : A -> M B) :
  halting badA m ->
  (forall a, badA a = false -> halting badB (k a)) ->
  (forall a, badA a = true ->
     emits is_report (k a) /\ forall t, failure badB (fst (k a t)) = true) ->
  halting badB (bind m k).
Proof.
  intros Hm Hgood Hbad t. destruct (Hm t) as (n1 & E1 & H1 & F1). unfold bind.
  destruct (m t) as [[a|e] t1]; simpl in E1, F1; subst t1.
  - destruct (badA a) eqn:Ha.
    + destruct (Hbad a Ha) as [Hr Hf]. destruct (Hr (t ++ n1)) as (n2 & E2 & R2).
      exists (n1 ++ n2). rewrite E2, app_assoc. split; [done|].
      split; [by apply halted_app_reports|]. intros _. apply Hf.
    + assert (existsb command_failed n1 = false) as C1.
      { destruct (existsb command_failed n1); [by rewrite F1|done]. }
      destruct (Hgood a Ha (t ++ n1)) as (n2 & E2 & H2 & F2).
      exists (n1 ++ n2). rewrite E2, app_assoc. split; [done|].
      rewrite halted_app_clean, existsb_app, C1 by done. done.
  - exists n1. auto.
Qed.

Lemma halting_bind (bad : B -> bool) (m : M A) (k : A -> M B) :
  halting never m -> (forall a, halting bad (k a)) -> halting bad (bind m k).
Proof.
  intros Hm Hk. apply (halting_bind_gen never); [done|auto|done].
Qed.

Lemma halting_try (bad : A -> bool) (m : M A) (handler : exception -> M A) :
  halting bad m ->
  (forall e, emits is_report (handler e)
             /\ forall t, failure bad (fst (handler e t)) = true) ->
  halting bad (try_except m handler).
Proof.
  intros Hm Hh t. destruct (Hm t) as (n1 & E1 & H1 & F1). unfold try_except.
  destruct (m t) as [[a|e] t1]; simpl in E1, F1; subst t1.
  - exists n1. auto.
  - destruct (Hh e) as [Hr Hf]. destruct (Hr (t ++ n1)) as (n2 & E2 & R2).
    exists (n1 ++ n2). rewrite E2, app_assoc. split; [done|].
    split; [by apply halted_app_reports|]. intros _. apply Hf.
Qed.

End Halting.

(** ** The steps of the program *)

Ltac emits_step :=
  first
    [ apply emits_ret | apply emits_raise | apply emits_ask | apply emits_lift
    | apply emits_query
    | apply emits_emit; done
    | apply emits_bind; [|intros ?]
    | apply emits_try; [|intros ?] ].

Section Steps.
Variable h : Host.

Lemma emits_print ok line : ok (Print line) = true -> emits ok (print line).
Proof. apply emits_emit. Qed.

Lemma emits_log ok message verbose important :
  (forall line, ok (Print line) = true) -> emits ok (_log message verbose important).
Proof.
  intros H. unfold _log.
  destruct (important || verbose), important;
    try apply emits_print; try apply emits_ret; auto.
Qed.

Lemma emits_run_command ok command verbose :
  (forall line, ok (Print line) = true) ->
  (forall r, ok (Shell command r) = true) ->
  emits ok (_run_command h command verbose).
Proof.
  intros Hp Hs. unfold _run_command.
  apply emits_bind; [by apply emits_log|intros _].
  apply emits_bind; [apply emits_ask|intros r].
  apply emits_bind; [by apply emits_emit|intros _].
  apply emits_bind; [apply emits_lift|intros c].
  destruct (negb _); [apply emits_raise|apply emits_ret].
Qed.

Lemma halting_log message verbose important :
  halting never (_log message verbose important).
Proof. by apply halting_of_emits, emits_log. Qed.

Lemma halting_run_command command verbose :
  halting never (_run_command h command verbose).
Proof.
  intros t. unfold _run_command, bind, ask, emit, _log, print, emit, ret, raise, lift.
  destruct verbose; simpl.
  - set (r := run_shell h _ command).
    exists [Print ("[agent-deployer] " +:+ "Running: " +:+ command); Shell command r].
    rewrite <- app_assoc. simpl.
    destruct r as [c|e]; simpl; [|auto].
    destruct (negb (returncode c =? 0)); simpl; auto.
  - set (r := run_shell h _ command). exists [Shell command r]. simpl.
    destruct r as [c|e]; simpl; [|auto].
    destruct (negb (returncode c =? 0)); simpl; auto.
Qed.

Lemma emits_write_temp ok content :
  (forall p c, ok (TempWrite p c) = true) -> emits ok (write_temp h content).
Proof.
  intros H. unfold write_temp.
  apply emits_bind; [apply emits_query|intros p].
  apply emits_bind; [by apply emits_emit|intros _]. apply emits_ret.
Qed.

Lemma emits_read_environment ok project_path env_file :
  (forall line, ok (Print line) = true) ->
  emits ok (read_environment h project_path env_file).
Proof.
  intros H. unfold read_environment.
  apply emits_bind; [destruct (given env_file); emits_step|intros present].
  destruct present; [|apply emits_ret].
  apply emits_bind; [by apply emits_log|intros _].
  apply emits_bind; [apply emits_query|intros content]. apply emits_lift.
Qed.

Lemma emits_prepare a : emits harmless (prepare h a).
Proof.
  unfold prepare.
  apply emits_bind; [apply emits_ask|intros project_path].
  apply emits_bind; [apply emits_ask|intros is_directory].
  destruct (negb is_directory); [apply emits_raise|].
  apply emits_bind; [by apply emits_log|intros _].
  apply emits_bind; [by apply emits_log|intros _].
  apply emits_bind; [by apply emits_run_command|intros user].
  apply emits_bind; [by apply emits_run_command|intros group].
  apply emits_bind; [by apply emits_read_environment|intros vars].
  apply emits_ret.
Qed.

Lemma unsupported_exec_start framework project_path venv_path port workers timeout :
  ~ In framework ["fastapi"; "flask"; "django"] ->
  _get_exec_start framework project_path venv_path port workers timeout
  = Raise (ValueError ("Unsupported framework: " +:+ framework)).
Proof.
  intros H. unfold _get_exec_start.
  destruct (String.eqb framework "fastapi") eqn:E1;
    [apply String.eqb_eq in E1 as ->; destruct H; simpl; auto|].
  destruct (String.eqb framework "flask") eqn:E2;
    [apply String.eqb_eq in E2 as ->; destruct H; simpl; auto|].
  destruct (String.eqb framework "django") eqn:E3;
    [apply String.eqb_eq in E3 as ->; destruct H; simpl; auto|].
  done.
Qed.

Lemma supported_exec_start framework project_path venv_path port workers timeout :
  In framework ["fastapi"; "flask"; "django"] ->
  exists command,
    _get_exec_start framework project_path venv_path port workers timeout
    = Ok command.
Proof.
  simpl. intros [<- | [<- | [<- | []]]]; unfold _get_exec_start; simpl; eauto.
Qed.

(** The part of [deploy_api] that follows [prepare]. *)
Lemma deploy_api_after_prepare a t :
  match prepare h a t with
  | (Raise e, t') => deploy_api h a t = (Raise e, t')
  | (Ok (project_path, user, group, environment_vars), t') =>
      match _get_exec_start a.(framework) project_path
              (path_join project_path a.(venv_name))
              a.(port) a.(workers) a.(timeout) with
      | Raise e => deploy_api h a t = (Raise e, t')
      | Ok _ =>
          deploy_api h a t =
            (Raise (KeyError "PATH"),
             t' ++ [Print (esc +:+ "[1m[agent-deployer]" +:+ esc +:+ "[0m "
                           +:+ "Configuring service to run on port "
                           +:+ str_int a.(port) +:+ " with "
                           +:+ str_int a.(workers) +:+ " workers")])
      end
  end.
Proof.
  destruct (prepare h a t) as [[[[[project_path user] group] vars]|e] t'] eqn:P.
  - destruct (_get_exec_start _ _ _ _ _ _) as [exec_start|e] eqn:X.
    + unfold deploy_api. unfold bind at 1. rewrite P.
      unfold bind at 1, lift at 1. rewrite X.
      unfold bind at 1. unfold _log at 1. simpl. unfold print, emit.
      unfold bind at 1, lift at 1. by rewrite systemd_render_fails.
    + unfold deploy_api. unfold bind at 1. rewrite P.
      unfold bind at 1, lift at 1. by rewrite X.
  - unfold deploy_api. unfold bind at 1. by rewrite P.
Qed.

Lemma deploy_api_stops a t :
  exists e new, deploy_api h a t = (Raise e, t ++ new)
                /\ forallb harmless new = true.
Proof.
  pose proof (deploy_api_after_prepare a t) as H.
  destruct (emits_prepare a t) as (new & E & F).
  destruct (prepare h a t) as [[[[[project_path user] group] vars]|e] t'];
    simpl in E; subst t'.
  - destruct (_get_exec_start _ _ _ _ _ _) as [exec_start|e].
    + eexists _, (new ++ [_]). rewrite H, app_assoc. split; [done|].
      by rewrite forallb_app, F.
    + by exists e, new.
  - by exists e, new.
Qed.

End Steps.

(** Goals [emits ok m] for [m] made of prints and queries. *)
Ltac emits_tac :=
  repeat first
    [ apply emits_ret | apply emits_raise | apply emits_ask | apply emits_lift
    | apply emits_query
    | apply emits_log; done
    | apply emits_print; done
    | apply emits_emit; done
    | apply emits_read_environment; done
    | apply emits_write_temp; done
    | apply emits_bind; [|intros ?]
    | match goal with
      | |- emits _ (if ?b then _ else _) => destruct b
      | |- emits _ (match ?x with _ => _ end) => destruct x
      end ].

Ltac halting_tac :=
  repeat first
    [ apply halting_log
    | apply halting_run_command
    | apply halting_of_emits; solve [emits_tac]
    | apply halting_bind; [|intros ?]
    | match goal with
      | |- halting _ (if ?b then _ else _) => destruct b
      | |- halting _ (match ?x with _ => _ end) => destruct x
      end ].

Section Program.
Variable h : Host.

Lemma halting_prepare a : halting never (prepare h a).
Proof. unfold prepare. halting_tac. Qed.

Lemma halting_deploy_api a : halting never (deploy_api h a).
Proof.
  unfold deploy_api.
  apply halting_bind; [apply halting_prepare|intros [[[project_path user] group] vars]].
  halting_tac.
Qed.

Lemma halting_run argv check : halting never (Cli.run h argv check).
Proof.
  intros t. unfold Cli.run, bind, ask, emit, raise, ret, lift. simpl.
  set (r := run_argv h t argv). exists [Spawn argv check r].
  destruct check, r as [c|e]; simpl; try done.
  destruct (negb (returncode c =? 0)); done.
Qed.

Lemma emits_run ok argv check :
  (forall r, ok (Spawn argv check r) = true) -> emits ok (Cli.run h argv check).
Proof.
  intros H t. unfold Cli.run, bind, ask, emit, raise, ret, lift. simpl.
  set (r := run_argv h t argv). exists [Spawn argv check r].
  simpl. rewrite H. by destruct r as [c|e]; [destruct (check && _)|].
Qed.

Lemma emits_check_package ok verbose missing item :
  (forall line, ok (Print line) = true) ->
  (forall argv r, ok (Spawn argv false r) = true) ->
  emits ok (Cli.check_package h verbose missing item).
Proof.
  intros Hp Hs. unfold Cli.check_package. destruct item as [package install_name].
  apply emits_bind; [emits_tac|intros _].
  apply emits_try.
  - destruct (String.eqb package "nginx");
      [|destruct (String.eqb package "certbot")];
      (apply emits_bind; [by apply emits_run|intros ?]); emits_tac.
  - intros e. destruct e; emits_tac.
Qed.

Lemma emits_check_packages ok verbose items : forall missing,
  (forall line, ok (Print line) = true) ->
  (forall argv r, ok (Spawn argv false r) = true) ->
  emits ok (Cli.check_packages h verbose missing items).
Proof.
  induction items as [|item rest IH]; intros missing Hp Hs; simpl.
  - apply emits_ret.
  - apply emits_bind; [by apply emits_check_package|intros ?]. by apply IH.
Qed.

Lemma emits_input ok prompt :
  (forall p a, ok (Input p a) = true) -> emits ok (Cli.input h prompt).
Proof.
  intros H. unfold Cli.input.
  apply emits_bind; [apply emits_ask|intros answer].
  apply emits_bind; [by apply emits_emit|intros _]. apply emits_lift.
Qed.

Lemma emits_cli_log ok message :
  (forall line, ok (Print line) = true) -> emits ok (Cli.log message).
Proof. intros H. by apply emits_print. Qed.

Lemma halting_check_dependencies verbose :
  halting negb (Cli.check_dependencies h verbose).
Proof.
  unfold Cli.check_dependencies.
  apply halting_bind; [by apply halting_of_emits, emits_cli_log|intros _].
  apply halting_bind; [by apply halting_of_emits, emits_check_packages|intros missing].
  destruct missing as [|package missing].
  { apply halting_of_emits. apply emits_bind; [by apply emits_cli_log|intros _].
    apply emits_ret. }
  apply halting_bind; [by apply halting_of_emits, emits_cli_log|intros _].
  apply halting_bind; [by apply halting_of_emits, emits_input|intros answer].
  destruct (String.eqb _ "y").
  - apply halting_try.
    + apply halting_bind; [by apply halting_of_emits, emits_cli_log|intros _].
      apply halting_bind; [apply halting_run|intros _].
      apply halting_bind; [by apply halting_of_emits, emits_cli_log|intros _].
      apply halting_bind; [apply halting_run|intros _].
      apply halting_of_emits. apply emits_bind; [by apply emits_cli_log|intros _].
      apply emits_ret.
    + intros e. destruct e; split; try (apply emits_raise); try done.
      apply emits_bind; [by apply emits_cli_log|intros _]. apply emits_ret.
  - apply halting_of_emits. apply emits_bind; [by apply emits_cli_log|intros _].
    apply emits_ret.
Qed.

End Program.

Ltac cli_emits_tac :=
  repeat first
    [ apply emits_ret | apply emits_raise | apply emits_ask | apply emits_lift
    | apply emits_query
    | apply emits_cli_log; done
    | apply emits_print; done
    | apply emits_emit; done
    | apply emits_bind; [|intros ?]
    | match goal with
      | |- emits _ (if ?b then _ else _) => destruct b
      | |- emits _ (match ?x with _ => _ end) => destruct x
      end ].

Ltac returns_tac :=
  repeat first
    [ apply returns_ret; auto
    | apply returns_bind; intros ?
    | match goal with
      | |- returns _ (if ?b then _ else _) => destruct b
      | |- returns _ (match ?x with _ => _ end) => destruct x
      end ].

Section Orchestration.
Variable h : Host.

Lemma halting_deploy_and_report args :
  halting exit_bad (Cli.deploy_and_report h args).
Proof.
  unfold Cli.deploy_and_report.
  apply halting_bind; [apply halting_deploy_api|intros _].
  apply halting_bind; [apply halting_run|intros completed].
  apply halting_of_emits. cli_emits_tac.
Qed.

Lemma halting_attempt args : halting exit_bad (Cli.attempt h args).
Proof.
  unfold Cli.attempt.
  apply halting_bind; [by apply halting_of_emits, emits_cli_log|intros _].
  apply (halting_bind_gen negb); [apply halting_check_dependencies|..].
  - intros [|]; [intros _|done]. simpl negb. cbv iota.
    apply halting_bind; [apply halting_of_emits, emits_ask|intros found].
    destruct found; simpl negb; cbv iota.
    + apply halting_bind; [by apply halting_of_emits, emits_cli_log|intros _].
      apply halting_deploy_and_report.
    + apply halting_of_emits. cli_emits_tac.
  - intros [|]; [done|intros _]. split; [apply emits_ret|done].
Qed.

Lemma report_error_run args e t :
  Cli.report_error h args e t = (Ok 1, t ++ error_report h args e).
Proof.
  unfold Cli.report_error, error_report, logged, Cli.log, print, emit, bind, ret.
  destruct (Cli.verbose args); simpl; by rewrite <- ?app_assoc.
Qed.

Lemma halting_orchestrate args : halting exit_bad (Cli.orchestrate h args).
Proof.
  apply halting_try; [apply halting_attempt|].
  intros e. split.
  - intros t. exists (error_report h args e). rewrite report_error_run.
    split; [done|]. unfold error_report. by destruct (Cli.verbose args).
  - intros t. by rewrite report_error_run.
Qed.

Lemma returns_attempt args :
  returns (fun status => status = 0 \/ status = 1) (Cli.attempt h args).
Proof.
  unfold Cli.attempt, Cli.deploy_and_report. returns_tac.
Qed.

Lemma orchestrate_status args t :
  exists status new,
    Cli.orchestrate h args t = (Ok status, t ++ new) /\ (status = 0 \/ status = 1).
Proof.
  destruct (halting_orchestrate args t) as (new & E & _).
  pose proof (returns_attempt args t) as R.
  unfold Cli.orchestrate, try_except in *.
  destruct (Cli.attempt h args t) as [[status|e] t'].
  - exists status, new. simpl in *. subst t'. auto.
  - rewrite report_error_run in *. simpl in E. rewrite E. exists 1, new. auto.
Qed.

(** Once something has failed, the status is 1 and only reports follow. *)
Lemma orchestrate_stops args t status new :
  Cli.orchestrate h args t = (Ok status, t ++ new) ->
  forall pre e post, new = pre ++ e :: post -> command_failed e = true ->
    status = 1 /\ forallb is_report post = true
    /\ existsb command_failed pre = false.
Proof.
  intros E pre e post Hnew He.
  destruct (halting_orchestrate args t) as (new' & E' & H & F).
  rewrite E in E', F. simpl in E', F. apply app_inv_head in E' as <-.
  destruct (halted_stop new H pre e post Hnew He) as [Hpost Hpre].
  destruct (orchestrate_status args t) as (s' & n' & E2 & Hs).
  rewrite E in E2. injection E2 as <- _.
  assert (exit_bad status = true) as Hbad.
  { apply F. rewrite Hnew, existsb_app. simpl. by rewrite He, orb_true_r. }
  unfold exit_bad in Hbad. destruct Hs as [-> | ->]; [done|auto].
Qed.

Lemma orchestrate_dependencies_failed args t t1 :
  Cli.check_dependencies h args.(Cli.verbose) (t ++ [started args]) = (Ok false, t1) ->
  Cli.orchestrate h args t = (Ok 1, t1).
Proof.
  unfold started, logged. intros E.
  unfold Cli.orchestrate, try_except, Cli.attempt.
  unfold bind at 1. unfold Cli.log at 1, print, emit.
  unfold bind at 1. by rewrite E.
Qed.

Lemma orchestrate_venv_missing args t t1 :
  Cli.check_dependencies h args.(Cli.verbose) (t ++ [started args]) = (Ok true, t1) ->
  isdir h t1 (path_join args.(Cli.project_path) args.(Cli.venv_name)) = false ->
  Cli.orchestrate h args t = (Ok 1, t1 ++ venv_missing args).
Proof.
  unfold started, logged. intros E V.
  unfold Cli.orchestrate, try_except, Cli.attempt.
  unfold bind at 1. unfold Cli.log at 1, print, emit.
  unfold bind at 1. rewrite E. cbn [negb].
  unfold bind at 1, ask at 1. rewrite V. cbn [negb].
  unfold bind, Cli.log, print, emit, ret, venv_missing, logged.
  by rewrite <- app_assoc.
Qed.

Lemma orchestrate_deploy_failed args t t1 t2 e :
  Cli.check_dependencies h args.(Cli.verbose) (t ++ [started args]) = (Ok true, t1) ->
  isdir h t1 (path_join args.(Cli.project_path) args.(Cli.venv_name)) = true ->
  deploy_api h (Cli.request_of args) (t1 ++ [venv_found args]) = (Raise e, t2) ->
  Cli.orchestrate h args t = (Ok 1, t2 ++ error_report h args e).
Proof.
  unfold started, venv_found, logged. intros E V D.
  unfold Cli.orchestrate, try_except, Cli.attempt.
  unfold bind at 1. unfold Cli.log at 1, print, emit.
  unfold bind at 1. rewrite E. cbn [negb].
  unfold bind at 1, ask at 1. rewrite V. cbn [negb].
  unfold bind at 1. unfold Cli.log at 1, print, emit.
  unfold Cli.deploy_and_report. unfold bind at 1. rewrite D.
  apply report_error_run.
Qed.

Lemma deploy_api_missing_path a t :
  isdir h t (abspath h t a.(project_path)) = false ->
  deploy_api h a t =
    (Raise (ValueError ("Project path does not exist: "
                        +:+ abspath h t a.(project_path))), t).
Proof.
  intros E. pose proof (deploy_api_after_prepare h a t) as H.
  unfold prepare in H. unfold bind at 1, ask at 1 in H.
  unfold bind at 1, ask at 1 in H. rewrite E in H. exact H.
Qed.

End Orchestration.

(** ** The argument parser *)

Section Parser.
Variable recognise : list string -> list (string * option string) + Z.
Variable int_of_string : string -> option Z.

Lemma defaults_framework_checked : framework_checked Cli.defaults.
Proof. intros v. vm_compute. intros [= <-]. by left. Qed.

Lemma take_action_framework_checked ns o ns' :
  framework_checked ns -> Cli.take_action int_of_string ns o = inl ns' ->
  framework_checked ns'.
Proof.
  intros Hns. unfold Cli.take_action. destruct o as [flag argument].
  destruct (Cli.find_argument flag) as [a|] eqn:Hfind; [|done].
  apply find_some in Hfind as [Hin _].
  unfold Cli.arguments, Cli.add_argument in Hin. simpl in Hin.
  repeat (destruct Hin as [<- | Hin]); try done;
    simpl; destruct argument as [v|]; try done.
  all: try (intros [= <-]; intros w; rewrite lookup_insert_ne by done; apply Hns).
  all: try (destruct (int_of_string v); [|done]; intros [= <-]; intros w;
            rewrite lookup_insert_ne by done; apply Hns).
  unfold Cli.in_choices. cbn [Cli.choices].
  destruct (existsb (String.eqb v) Cli.framework_choices) eqn:E; [|done].
  intros [= <-] w. rewrite lookup_insert_eq. intros [= <-]. right.
  exists v. split; [done|].
  apply existsb_exists in E as (s & Hs & ->%String.eqb_eq). done.
Qed.

Lemma take_actions_framework_checked occurrences : forall ns ns',
  framework_checked ns -> Cli.take_actions int_of_string ns occurrences = inl ns' ->
  framework_checked ns'.
Proof.
  induction occurrences as [|o rest IH]; intros ns ns' Hns; simpl.
  - by intros [= <-].
  - destruct (Cli.take_action int_of_string ns o) as [ns1|] eqn:E; [|done].
    apply IH. by eapply take_action_framework_checked.
Qed.

Lemma finish_framework ns args :
  framework_checked ns -> Cli.finish ns = inl args ->
  In args.(Cli.framework) Cli.framework_choices.
Proof.
  intros Hns. unfold Cli.finish.
  destruct (Cli.attr_str ns "project_path") as [pp|]; [|done].
  destruct (Cli.attr_str ns "service_name") as [sn|]; [|done].
  destruct (Cli.attr_str ns "framework") as [f|] eqn:F; [|done].
  destruct (Cli.attr_int ns "port"); [|done].
  destruct (Cli.attr_str ns "venv_name"); [|done].
  destruct (Cli.attr_int ns "workers"); [|done].
  destruct (Cli.attr_int ns "timeout"); [|done].
  destruct (Cli.attr_str ns "frontend_url_prefix"); [|done].
  destruct (Cli.attr_str ns "api_url_prefix"); [|done].
  intros [= <-]. simpl.
  unfold Cli.attr_str in F.
  destruct (ns !! "framework") as [[| |name|]|] eqn:L; try done.
  injection F as ->.
  destruct (Hns _ L) as [|(name & [= <-] & Hname)]; done.
Qed.

Lemma parse_args_framework argv args :
  Cli.parse_args recognise int_of_string argv = inl args ->
  In args.(Cli.framework) Cli.framework_choices.
Proof.
  unfold Cli.parse_args.
  destruct (recognise argv) as [occurrences|]; [|done].
  destruct (Cli.take_actions _ _ _) as [ns|] eqn:E; [|done].
  apply finish_framework.
  eapply take_actions_framework_checked; [apply defaults_framework_checked|done].
Qed.

End Parser.

(** ** Runs that end in an exception *)

Section Stops.
Context {A B : Type} (ok : event -> bool).

Lemma stops_lift (r : result A) e : r = Raise e -> stops ok (lift r).
Proof. intros -> t. exists e, []. by rewrite app_nil_r. Qed.

Lemma stops_bind_l (m : M A) (k : A -> M B) : stops ok m -> stops ok (bind m k).
Proof.
  intros Hm t. destruct (Hm t) as (e & new & E & F).
  exists e, new. unfold bind. by rewrite E.
Qed.

Lemma stops_bind_r (m : M A) (k : A -> M B) :
  emits ok m -> (forall a, stops ok (k a)) -> stops ok (bind m k).
Proof.
  intros Hm Hk t. destruct (Hm t) as (n1 & E1 & F1). unfold bind.
  destruct (m t) as [[a|e] t1]; simpl in E1; subst t1.
  - destruct (Hk a (t ++ n1)) as (e & n2 & E2 & F2).
    exists e, (n1 ++ n2). rewrite E2, app_assoc, forallb_app, F1, F2. done.
  - by exists e, n1.
Qed.

Lemma stops_emits (m : M A) : stops ok m -> emits ok m.
Proof.
  intros Hm t. destruct (Hm t) as (e & new & E & F). exists new. by rewrite E.
Qed.

Lemma stops_raises (m : M A) : stops ok m -> raises m.
Proof.
  intros Hm t. destruct (Hm t) as (e & new & E & F). exists e. by rewrite E.
Qed.

End Stops.

Lemma stops_weaken {A} (ok ok' : event -> bool) (m : M A) :
  (forall e, ok e = true -> ok' e = true) -> stops ok m -> stops ok' m.
Proof.
  intros Himp Hm t. destruct (Hm t) as (e & new & E & F). exists e, new.
  split; [done|]. rewrite forallb_forall in *. auto.
Qed.

Lemma harmless_no_write e : harmless e = true -> no_write e = true.
Proof.
  destruct e; try done. simpl.
  by intros [->%String.eqb_eq | ->%String.eqb_eq]%orb_true_iff.
Qed.

Section NeverWritten.
Variable h : Host.

Lemma stops_deploy_api a : stops harmless (deploy_api h a).
Proof. intros t. apply deploy_api_stops. Qed.

Lemma stops_configure_nginx a domain : stops no_write (configure_nginx h a domain).
Proof.
  unfold configure_nginx.
  apply stops_bind_r; [by apply emits_log|intros _].
  apply stops_bind_r; [by apply emits_log|intros _].
  apply stops_bind_r; [by apply emits_run_command|intros answer].
  apply stops_bind_r; [emits_tac|intros has_frontend].
  apply stops_bind_r; [emits_tac|intros _].
  apply stops_bind_l.
  destruct has_frontend, (String.eqb answer "yes");
    (apply stops_bind_r; [by apply emits_log|intros _]).
  - apply stops_bind_r; [apply emits_ask|intros frontend].
    eapply stops_lift. apply (nginx_render_fails true true).
  - apply stops_bind_r; [apply emits_ask|intros frontend].
    eapply stops_lift. apply (nginx_render_fails true false).
  - eapply stops_lift. apply (nginx_render_fails false true _ _ "" "" "").
  - eapply stops_lift. apply (nginx_render_fails false false _ _ "" "" "").
Qed.

Lemma emits_check_dependencies ok verbose :
  (forall line, ok (Print line) = true) ->
  (forall argv check r, ok (Spawn argv check r) = true) ->
  (forall p a, ok (Input p a) = true) ->
  emits ok (Cli.check_dependencies h verbose).
Proof.
  intros Hp Hs Hi. unfold Cli.check_dependencies.
  apply emits_bind; [by apply emits_cli_log|intros _].
  apply emits_bind; [by apply emits_check_packages|intros missing].
  destruct missing as [|package missing].
  { apply emits_bind; [by apply emits_cli_log|intros _]. apply emits_ret. }
  apply emits_bind; [by apply emits_cli_log|intros _].
  apply emits_bind; [by apply emits_input|intros answer].
  destruct (String.eqb _ "y").
  - apply emits_try.
    + apply emits_bind; [by apply emits_cli_log|intros _].
      apply emits_bind; [by apply emits_run|intros _].
      apply emits_bind; [by apply emits_cli_log|intros _].
      apply emits_bind; [by apply emits_run|intros _].
      apply emits_bind; [by apply emits_cli_log|intros _]. apply emits_ret.
    + intros e. destruct e; try apply emits_raise.
      apply emits_bind; [by apply emits_cli_log|intros _]. apply emits_ret.
  - apply emits_bind; [by apply emits_cli_log|intros _]. apply emits_ret.
Qed.

Lemma stops_deploy_and_report args : stops no_write (Cli.deploy_and_report h args).
Proof.
  unfold Cli.deploy_and_report. apply stops_bind_l.
  eapply stops_weaken; [apply harmless_no_write|apply stops_deploy_api].
Qed.

Lemma emits_attempt args : emits no_write (Cli.attempt h args).
Proof.
  unfold Cli.attempt.
  apply emits_bind; [by apply emits_cli_log|intros _].
  apply emits_bind; [by apply emits_check_dependencies|intros dependencies].
  destruct dependencies; cbn [negb]; [|apply emits_ret].
  apply emits_bind; [apply emits_ask|intros found].
  destruct found; cbn [negb]; [|cli_emits_tac].
  apply emits_bind; [by apply emits_cli_log|intros _].
  apply stops_emits, stops_deploy_and_report.
Qed.

Lemma returns_attempt_one args : returns (fun status => status = 1) (Cli.attempt h args).
Proof.
  unfold Cli.attempt.
  apply returns_bind; intros _. apply returns_bind; intros dependencies.
  destruct dependencies; cbn [negb]; [|by apply returns_ret].
  apply returns_bind; intros found.
  destruct found; cbn [negb]; [|returns_tac].
  apply returns_bind; intros _.
  eapply returns_raises, stops_raises, stops_deploy_and_report.
Qed.

(** Every run of the try block and its handler ends with status 1 and has
    written no file. *)
Lemma orchestrate_never_writes args t :
  exists new, Cli.orchestrate h args t = (Ok 1, t ++ new)
              /\ forallb no_write new = true.
Proof.
  destruct (emits_attempt args t) as (n1 & E1 & F1).
  pose proof (returns_attempt_one args t) as R.
  unfold Cli.orchestrate, try_except.
  destruct (Cli.attempt h args t) as [[status|e] t1]; simpl in E1; subst t1.
  - exists n1. by rewrite (R status eq_refl).
  - rewrite report_error_run. exists (n1 ++ error_report h args e).
    rewrite app_assoc, forallb_app, F1. split; [done|].
    unfold error_report. by destruct (Cli.verbose args).
Qed.

End NeverWritten.

(** ** The environment file and the entry point *)

Section Environment.
Variable h : Host.

Lemma read_environment_file project_path env_file t content :
  given (Some env_file) = true ->
  isfile h t (path_join project_path env_file) = true ->
  read_text h (t ++ [loading env_file]) (path_join project_path env_file)
  = Ok content ->
  read_environment h project_path (Some env_file) t
  = (load_environment "" (file_lines content), t ++ [loading env_file]).
Proof.
  intros Hg Hf Hr.
  unfold read_environment. unfold bind at 1. rewrite Hg. unfold ask at 1.
  unfold the. cbn [default from_option]. unfold id.
  rewrite Hf. unfold bind at 1. unfold _log at 1. cbn [orb].
  unfold print, emit. unfold bind at 1. unfold lift at 1.
  unfold loading, logged in Hr. rewrite Hr. done.
Qed.

Lemma prepare_environment a t project_path user group vars t' :
  prepare h a t = (Ok (project_path, user, group, vars), t') ->
  project_path = abspath h t a.(Deploy.project_path)
  /\ exists t0,
       read_environment h project_path a.(env_file) t0 = (Ok vars, t').
Proof.
  unfold prepare. unfold bind at 1, ask at 1. unfold bind at 1, ask at 1.
  destruct (negb _); [done|].
  unfold bind at 1. destruct (_log _ _ _ t) as [[[]|e] t1]; [|done].
  unfold bind at 1. destruct (_log _ _ _ t1) as [[[]|e] t2]; [|done].
  unfold bind at 1. destruct (_run_command h "whoami" _ t2) as [[u|e] t3]; [|done].
  unfold bind at 1. destruct (_run_command h "id -gn" _ t3) as [[g|e] t4]; [|done].
  unfold bind at 1.
  destruct (read_environment h _ _ t4) as [[v|e] t5] eqn:R; [|done].
  unfold ret. intros [= <- <- <- <- <-]. split; [done|]. by exists t4.
Qed.

End Environment.

Section Entry.
Variable h : Host.
Variable recognise : list string -> list (string * option string) + Z.
Variable int_of_string : string -> option Z.

Lemma deploy_api_supported a t :
  In a.(framework) ["fastapi"; "flask"; "django"] ->
  match prepare h a t with
  | (Ok _, t') =>
      deploy_api h a t
      = (Raise (KeyError "PATH"), t' ++ [configuring a.(port) a.(workers)])
  | (Raise e, t') => deploy_api h a t = (Raise e, t')
  end.
Proof.
  intros Hin. pose proof (deploy_api_after_prepare h a t) as H.
  destruct (prepare h a t) as [[[[[project_path user] group] vars]|e] t']; [|done].
  destruct (supported_exec_start a.(framework) project_path
              (path_join project_path a.(venv_name)) a.(port) a.(workers)
              a.(timeout) Hin) as [command X].
  by rewrite X in H.
Qed.

Lemma main_reaches_render argv args before t1 prepared t2 :
  Cli.parse_args recognise int_of_string argv = inl args ->
  In args.(Cli.framework) ["fastapi"; "flask"; "django"] ->
  Cli.check_dependencies h args.(Cli.verbose)
    (snd (Cli.banner before) ++ [started args]) = (Ok true, t1) ->
  isdir h t1 (path_join args.(Cli.project_path) args.(Cli.venv_name)) = true ->
  prepare h (Cli.request_of args) (t1 ++ [venv_found args]) = (Ok prepared, t2) ->
  Cli.main h recognise int_of_string argv before
  = (1, t2 ++ [configuring args.(Cli.port) args.(Cli.workers)]
           ++ error_report h args (KeyError "PATH")).
Proof.
  intros P Hin E V R.
  pose proof (deploy_api_supported (Cli.request_of args) (t1 ++ [venv_found args]) Hin)
    as D.
  rewrite R in D. simpl in D.
  pose proof (orchestrate_deploy_failed h args _ _ _ _ E V D) as O.
  unfold Cli.main. destruct (Cli.banner before) as [r t]. simpl in O.
  by rewrite P, O, <- app_assoc.
Qed.

End Entry.

(** * The claims *)

(** C1 (the code departs from it).  The branch on (frontend, certificate)
    picks the template of the decision table, but rendering it never yields
    text: with the keyword arguments the code passes, [substitute] meets one
    of nginx's own variables, [$host], or [$request_uri] in the two TLS
    templates, finds no such key and raises [KeyError].  [configure_nginx]
    therefore ends in an exception before any file is written. *)
Theorem proxy_render_raises_key_error :
  forall has_frontend ssl_exists domain port frontend_path api_url_prefix
         frontend_url_prefix,
    select_template has_frontend ssl_exists
    = match has_frontend, ssl_exists with
      | false, false => NGINX_TEMPLATE
      | false, true => NGINX_SSL_TEMPLATE
      | true, false => NGINX_FRONTEND_TEMPLATE
      | true, true => NGINX_FRONTEND_SSL_TEMPLATE
      end
    /\ substitute (select_template has_frontend ssl_exists)
         (nginx_mapping has_frontend domain port frontend_path api_url_prefix
            frontend_url_prefix)
       = Raise (KeyError (if ssl_exists then "request_uri" else "host"))
    /\ forall h a t, exists e new,
         configure_nginx h a domain t = (Raise e, t ++ new)
         /\ forallb no_write new = true.
Proof.
  intros. split; [by destruct has_frontend, ssl_exists|].
  split; [apply nginx_render_fails|].
  intros h a t. apply stops_configure_nginx.
Qed.

(** C2.  The launch command of each supported framework: uvicorn bound to
    0.0.0.0 on the port with the workers and the keep-alive timeout for
    fastapi, gunicorn with workers, port and timeout aimed at [app:app] for
    flask, and the same gunicorn command aimed at the module named after what
    follows the last slash of the project path for django.  Numbers appear
    as [str] prints them. *)
Theorem exec_start_commands :
  forall project_path venv_path port workers timeout,
    _get_exec_start "fastapi" project_path venv_path port workers timeout
    = Ok (venv_path +:+ "/bin/uvicorn main:app --host 0.0.0.0 --port "
          +:+ str_int port +:+ " --workers " +:+ str_int workers
          +:+ " --timeout-keep-alive " +:+ str_int timeout)
    /\ _get_exec_start "flask" project_path venv_path port workers timeout
       = Ok (venv_path +:+ "/bin/gunicorn -w " +:+ str_int workers
             +:+ " -b 0.0.0.0:" +:+ str_int port
             +:+ " -t " +:+ str_int timeout +:+ " app:app")
    /\ _get_exec_start "django" project_path venv_path port workers timeout
       = Ok (venv_path +:+ "/bin/gunicorn -w " +:+ str_int workers
             +:+ " -b 0.0.0.0:" +:+ str_int port
             +:+ " -t " +:+ str_int timeout
             +:+ " " +:+ basename project_path +:+ ".wsgi:application")
    /\ contains_char "/" (basename project_path) = false
    /\ (exists directory,
          project_path = directory +:+ basename project_path
          /\ (directory = "" \/ endswith_char directory "/" = true))
    /\ _get_exec_start "flask" "/srv/shop" "/srv/shop/venv" 8000 2 120
       = Ok "/srv/shop/venv/bin/gunicorn -w 2 -b 0.0.0.0:8000 -t 120 app:app".
Proof.
  intros. repeat split; try reflexivity.
  - apply basename_no_slash.
  - apply basename_suffix.
Qed.

(** C3.  Rendering a template that asks for a key the mapping lacks raises
    [KeyError] on a key that is asked for and lacking, and so returns no
    text at all; whatever the program would do next with the text (write
    it to a file) is not done, the trace stays as it was.  This holds for
    each of the five templates of the program, and for any text in which
    every dollar sign starts a placeholder. *)
Theorem render_missing_key :
  forall template (mapping : gmap string value) k,
    In template templates \/ well_formed (tokens template) = true ->
    In k (placeholders (tokens template)) ->
    mapping !! k = None ->
    exists k',
      substitute template mapping = Raise (KeyError k')
      /\ mapping !! k' = None
      /\ In k' (placeholders (tokens template))
      /\ forall (next : string -> M unit) t,
           (content <- lift (substitute template mapping) ;; next content) t
           = (Raise (KeyError k'), t).
Proof.
  intros template mapping k Hwf Hin Hk.
  assert (well_formed (tokens template) = true) as W.
  { destruct Hwf as [Ht|]; [by apply templates_well_formed|done]. }
  pose proof (convert_missing_key template _ mapping k Hin Hk) as H.
  unfold substitute. destruct (convert template (tokens template) mapping) as [|[]];
    try done; [congruence|].
  exists key. destruct H as [H1 H2]. by repeat split.
Qed.

Lemma render_missing_key_witness :
  exists k',
    substitute SYSTEMD_TEMPLATE sample_unit_mapping = Raise (KeyError k')
    /\ sample_unit_mapping !! k' = None
    /\ In k' (placeholders (tokens SYSTEMD_TEMPLATE))
    /\ forall (next : string -> M unit) t,
         (content <- lift (substitute SYSTEMD_TEMPLATE sample_unit_mapping) ;;
          next content) t
         = (Raise (KeyError k'), t).
Proof.
  apply (render_missing_key SYSTEMD_TEMPLATE sample_unit_mapping "PATH").
  - left. simpl. left. reflexivity.
  - vm_compute. do 6 right. left. reflexivity.
  - vm_compute. reflexivity.
Defined.

(** C4.  The unit template asks for [PATH], which the keyword arguments of
    the call never supply: whatever the seven values are, rendering raises
    [KeyError] on [PATH].  Hence every run of [deploy_api] ends in an
    exception having done nothing but print and run [whoami] and [id -gn]:
    no temporary file is written, no file is moved.  When the preparation
    and the launch command succeed, the exception is that [KeyError], right
    after the line that announces port and workers. *)
Theorem unit_render_raises_on_PATH :
  (forall service_name user group project_path exec_start venv_path
          environment_vars,
     substitute SYSTEMD_TEMPLATE
       (unit_mapping service_name user group project_path exec_start venv_path
          environment_vars)
     = Raise (KeyError "PATH")
     /\ unit_mapping service_name user group project_path exec_start venv_path
          environment_vars !! "PATH" = None)
  /\ In "PATH" (placeholders (tokens SYSTEMD_TEMPLATE))
  /\ (forall h a t, exists e new,
        deploy_api h a t = (Raise e, t ++ new)
        /\ forallb harmless new = true /\ forallb no_write new = true)
  /\ (forall h a t project_path user group environment_vars t' exec_start,
        prepare h a t = (Ok (project_path, user, group, environment_vars), t') ->
        _get_exec_start a.(framework) project_path
          (path_join project_path a.(venv_name)) a.(port) a.(workers) a.(timeout)
        = Ok exec_start ->
        deploy_api h a t
        = (Raise (KeyError "PATH"),
           t' ++ [logged ("Configuring service to run on port "
                          +:+ str_int a.(port) +:+ " with "
                          +:+ str_int a.(workers) +:+ " workers")])).
Proof.
  split; [|split; [|split]].
  - intros. split; [apply systemd_render_fails|].
    unfold unit_mapping. by simplify_map_eq.
  - vm_compute. do 6 right. by left.
  - intros h a t. destruct (deploy_api_stops h a t) as (e & new & E & F).
    exists e, new. do 2 (split; [done|]).
    rewrite forallb_forall in *. intros x Hx. by apply harmless_no_write, F.
  - intros h a t project_path user group vars t' exec_start P X.
    pose proof (deploy_api_after_prepare h a t) as H.
    rewrite P, X in H. exact H.
Qed.

(** C5.  A framework outside fastapi, flask and django makes
    [_get_exec_start] raise [ValueError("Unsupported framework: ...")];
    [deploy_api] then ends in an exception having only printed and run
    [whoami] and [id -gn], so neither the unit nor a proxy configuration is
    written, and whenever the preparation succeeds the exception is that of
    the unsupported framework, raised with nothing done in between. *)
Theorem unsupported_framework_raises :
  forall name,
    existsb (String.eqb name) supported_frameworks = false ->
    (forall project_path venv_path port workers timeout,
       _get_exec_start name project_path venv_path port workers timeout
       = Raise (ValueError ("Unsupported framework: " +:+ name)))
    /\ (forall h a t, a.(framework) = name ->
          exists e new,
            deploy_api h a t = (Raise e, t ++ new)
            /\ forallb harmless new = true
            /\ forallb no_write new = true
            /\ (forall prepared t', prepare h a t = (Ok prepared, t') ->
                  e = ValueError ("Unsupported framework: " +:+ name)
                  /\ t' = t ++ new)).
Proof.
  intros name Hname.
  assert (~ In name ["fastapi"; "flask"; "django"]) as Hnot.
  { intros Hin. apply not_true_iff_false in Hname. apply Hname.
    apply existsb_exists. exists name. split; [done|apply String.eqb_refl]. }
  split; [intros; by apply unsupported_exec_start|].
  intros h a t <-.
  pose proof (deploy_api_after_prepare h a t) as H.
  destruct (emits_prepare h a t) as (new & E & F).
  assert (forallb no_write new = true) as W.
  { rewrite forallb_forall in *. intros x Hx. by apply harmless_no_write, F. }
  destruct (prepare h a t) as [[[[[project_path user] group] vars]|e] t1];
    simpl in E; subst t1.
  - rewrite unsupported_exec_start in H by done.
    eexists _, new. split; [exact H|]. do 2 (split; [done|]).
    by intros prepared t' [= <- <-].
  - exists e, new. split; [exact H|]. do 2 (split; [done|]). done.
Qed.

Lemma unsupported_framework_raises_witness :
  _get_exec_start "rails" "/srv/shop" "/srv/shop/venv" 8000 2 120
  = Raise (ValueError ("Unsupported framework: " +:+ "rails")).
Proof.
  apply (unsupported_framework_raises "rails"). reflexivity.
Defined.

(** C6.  Reading the environment file: a line whose stripped text is empty
    and a line that starts with [#] add nothing; any other line is cut at
    its first [=] and adds one directive; when every such line has an [=]
    the result is the directives of those lines, in order.  The file with
    the lines [A=1], [# comment], an empty line and [B=two=three] gives
    exactly two directives, the second with key [B] and value
    [two=three].  This is what the program does with the file: when the
    environment file is given and is there, [read_environment] announces it
    and returns the directives of its lines, those two for the file of the
    example, and what [prepare] hands to the composition of the unit as
    [environment_vars] is what [read_environment] returned for the resolved
    project path. *)
Theorem environment_file_directives :
  (forall line, strip line = "" \/ startswith line "#" = true ->
     environment_line line = Ok "")
  /\ (forall line key value,
        is_assignment line = true ->
        strip line = key +:+ "=" +:+ value ->
        contains_char "=" key = false ->
        split1 "=" (strip line) = [key; value]
        /\ environment_line line
           = Ok ("Environment=" +:+ dquote +:+ key +:+ "=" +:+ value
                 +:+ dquote +:+ newline))
  /\ (forall lines,
        (forall l, In l lines -> is_assignment l = true ->
                   contains_char "=" l = true) ->
        load_environment "" lines = Ok (directives lines))
  /\ file_lines example_env_file
     = ["A=1" +:+ newline; "# comment" +:+ newline; newline;
        "B=two=three" +:+ newline]
  /\ load_environment "" (file_lines example_env_file)
     = Ok (directive "A=1" +:+ directive "B=two=three")
  /\ split1 "=" "B=two=three" = ["B"; "two=three"]
  /\ (forall h project_path env_file t content,
        given (Some env_file) = true ->
        isfile h t (path_join project_path env_file) = true ->
        read_text h (t ++ [loading env_file]) (path_join project_path env_file)
        = Ok content ->
        (forall l, In l (file_lines content) -> is_assignment l = true ->
                   contains_char "=" l = true) ->
        read_environment h project_path (Some env_file) t
        = (Ok (directives (file_lines content)), t ++ [loading env_file]))
  /\ (forall h project_path env_file t,
        given (Some env_file) = true ->
        isfile h t (path_join project_path env_file) = true ->
        read_text h (t ++ [loading env_file]) (path_join project_path env_file)
        = Ok example_env_file ->
        read_environment h project_path (Some env_file) t
        = (Ok (directive "A=1" +:+ directive "B=two=three"),
           t ++ [loading env_file]))
  /\ (forall h a t project_path user group environment_vars t',
        prepare h a t = (Ok (project_path, user, group, environment_vars), t') ->
        project_path = abspath h t a.(Deploy.project_path)
        /\ exists t0,
             read_environment h project_path a.(env_file) t0
             = (Ok environment_vars, t')).
Proof.
  split; [|split; [|split; [|split; [|split; [|split; [|split; [|split]]]]]]];
    try reflexivity.
  - intros line H. rewrite environment_line_spec.
    unfold is_assignment. destruct H as [-> | ->]; [done|].
    by rewrite andb_false_r.
  - intros line key val Ha Hs Hk.
    assert (split1 "=" (strip line) = [key; val]) as S.
    { rewrite Hs. by apply (split1_first "=" key val). }
    split; [done|].
    unfold environment_line. unfold is_assignment in Ha. by rewrite Ha, S.
  - intros lines H. rewrite load_environment_spec by done. done.
  - intros h project_path env_file t content Hg Hf Hr Hall.
    rewrite (read_environment_file h _ _ _ content) by done.
    by rewrite load_environment_spec.
  - intros h project_path env_file t Hg Hf Hr.
    by rewrite (read_environment_file h _ _ _ example_env_file).
  - intros h a t project_path user group vars t'. apply prepare_environment.
Qed.

Lemma environment_file_directives_witness :
  load_environment "" ["A=1" +:+ newline; newline; "B=two=three" +:+ newline]
  = Ok (directives ["A=1" +:+ newline; newline; "B=two=three" +:+ newline])
  /\ read_environment example_host "/srv/shop" (Some ".env") []
     = (Ok (directives (file_lines example_env_file)), [] ++ [loading ".env"]).
Proof.
  split.
  - apply (proj1 (proj2 (proj2 environment_file_directives))).
    intros l Hin Ha. simpl in Hin.
    destruct Hin as [<- | [<- | [<- | []]]]; try reflexivity.
    vm_compute in Ha. discriminate Ha.
  - apply (proj1 (proj2 (proj2 (proj2 (proj2 (proj2 (proj2
             environment_file_directives)))))) example_host "/srv/shop" ".env" []
             example_env_file).
    + reflexivity.
    + reflexivity.
    + reflexivity.
    + intros l Hin Ha. vm_compute in Hin.
      destruct Hin as [<- | [<- | [<- | [<- | []]]]]; try reflexivity;
        vm_compute in Ha; discriminate Ha.
Defined.

(** C7.  The try block of [main] and its handler, started on any host after
    any history: the run ends with status 0 or 1; a command whose exit
    status is checked and is not zero is the last thing done, only reports
    follow it, nothing before it had failed, and the status is 1 (so status
    0 is reached only when no such command failed); a failed dependency
    check, a missing virtual environment, and any exception of
    [deploy_api] (a nonexistent project path, an unsupported framework, a
    failed command) each end the run with status 1, the error lines printed
    and nothing else done.  [main] hands that status to the process. *)
Theorem orchestration_halts_on_failure :
  (forall h args t, exists status new,
     Cli.orchestrate h args t = (Ok status, t ++ new)
     /\ (status = 0 \/ status = 1))
  /\ (forall h args t status pre e post,
        Cli.orchestrate h args t = (Ok status, t ++ (pre ++ e :: post)) ->
        command_failed e = true ->
        status = 1 /\ forallb is_report post = true
        /\ existsb command_failed pre = false)
  /\ (forall h args t t1,
        Cli.check_dependencies h args.(Cli.verbose) (t ++ [started args])
        = (Ok false, t1) ->
        Cli.orchestrate h args t = (Ok 1, t1))
  /\ (forall h args t t1,
        Cli.check_dependencies h args.(Cli.verbose) (t ++ [started args])
        = (Ok true, t1) ->
        isdir h t1 (path_join args.(Cli.project_path) args.(Cli.venv_name)) = false ->
        Cli.orchestrate h args t = (Ok 1, t1 ++ venv_missing args))
  /\ (forall h args t t1 t2 e,
        Cli.check_dependencies h args.(Cli.verbose) (t ++ [started args])
        = (Ok true, t1) ->
        isdir h t1 (path_join args.(Cli.project_path) args.(Cli.venv_name)) = true ->
        deploy_api h (Cli.request_of args) (t1 ++ [venv_found args]) = (Raise e, t2) ->
        Cli.orchestrate h args t = (Ok 1, t2 ++ error_report h args e))
  /\ (forall h a t,
        isdir h t (abspath h t a.(project_path)) = false ->
        deploy_api h a t
        = (Raise (ValueError ("Project path does not exist: "
                              +:+ abspath h t a.(project_path))), t))
  /\ (forall h recognise int_of_string argv before args,
        Cli.parse_args recognise int_of_string argv = inl args ->
        exists status t',
          Cli.orchestrate h args (snd (Cli.banner before)) = (Ok status, t')
          /\ Cli.main h recognise int_of_string argv before = (status, t')).
Proof.
  split; [|split; [|split; [|split; [|split; [|split]]]]].
  - apply orchestrate_status.
  - intros h args t status pre e post E He.
    exact (orchestrate_stops h args t status _ E pre e post eq_refl He).
  - apply orchestrate_dependencies_failed.
  - apply orchestrate_venv_missing.
  - apply orchestrate_deploy_failed.
  - apply deploy_api_missing_path.
  - intros h recognise int_of_string argv before args P.
    destruct (orchestrate_status h args (snd (Cli.banner before)))
      as (status & new & E & _).
    exists status, (snd (Cli.banner before) ++ new). split; [done|].
    unfold Cli.main. destruct (Cli.banner before) as [r t]. simpl in E.
    by rewrite P, E.
Qed.

Lemma orchestration_halts_on_failure_witness :
  1 = 1
  /\ forallb is_report (drop 9 (snd anonymous_run)) = true
  /\ existsb command_failed (take 8 (snd anonymous_run)) = false.
Proof.
  apply (proj1 (proj2 orchestration_halts_on_failure)
           anonymous_host sample_args [] 1
           (take 8 (snd anonymous_run))
           (Shell "whoami" (Ok (completed 1 "")))
           (drop 9 (snd anonymous_run))).
  - vm_compute. reflexivity.
  - reflexivity.
Defined.

(** C8 (the code departs from it).  Two runs in a row with the same
    arguments, the second on the host as the first left it: each ends with
    status 1, and between them no temporary file is written and no file is
    moved, linked or given a mode, so neither the unit nor the virtual host is
    produced, let alone overwritten with the same bytes.  So it is on the host where every command succeeds. *)
Theorem rerun_writes_nothing :
  forall h args t, exists first second,
    Cli.orchestrate h args t = (Ok 1, t ++ first)
    /\ Cli.orchestrate h args (t ++ first) = (Ok 1, (t ++ first) ++ second)
    /\ forallb no_write (first ++ second) = true
    /\ (forall pre e post,
          first ++ second = pre ++ e :: post -> is_write e = false)
    /\ fst (Cli.main willing_host sample_recognise sample_int sample_argv []) = 1.
Proof.
  intros h args t.
  destruct (orchestrate_never_writes h args t) as (n1 & E1 & F1).
  destruct (orchestrate_never_writes h args (t ++ n1)) as (n2 & E2 & F2).
  exists n1, n2. do 2 (split; [done|]).
  assert (forallb no_write (n1 ++ n2) = true) as F by by rewrite forallb_app, F1, F2.
  split; [done|]. split; [|by vm_compute].
  intros pre e post E. rewrite E in F.
  rewrite forallb_app in F. apply andb_true_iff in F as [_ F].
  simpl in F. apply andb_true_iff in F as [F _]. by apply negb_true_iff in F.
Qed.

(** C9.  A command line the parser accepts carries a framework among
    flask, fastapi and django, whatever way argparse matched the option
    strings; for such a value [_get_exec_start] returns a command, so its
    last branch is not taken.  [main] passes that very framework on, so in
    every run of [deploy_api] started from the command line either the
    preparation raises, before the launch command is asked for, or the
    launch command is settled and the line that follows it is printed (after
    which the unit template fails on [PATH]); and when the dependency check,
    the virtual environment and the preparation succeed, [main] ends with
    that line and the report of the [KeyError], not with an unsupported
    framework. *)
Theorem cli_framework_is_supported :
  forall recognise int_of_string argv args,
    Cli.parse_args recognise int_of_string argv = inl args ->
    In args.(Cli.framework) ["flask"; "fastapi"; "django"]
    /\ (forall project_path venv_path port workers timeout,
          exists command,
            _get_exec_start args.(Cli.framework) project_path venv_path
              port workers timeout = Ok command)
    /\ (Cli.request_of args).(framework) = args.(Cli.framework)
    /\ (forall h t,
          match prepare h (Cli.request_of args) t with
          | (Ok _, t') =>
              deploy_api h (Cli.request_of args) t
              = (Raise (KeyError "PATH"),
                 t' ++ [configuring args.(Cli.port) args.(Cli.workers)])
          | (Raise e, t') =>
              deploy_api h (Cli.request_of args) t = (Raise e, t')
          end)
    /\ (forall h before t1 prepared t2,
          Cli.check_dependencies h args.(Cli.verbose)
            (snd (Cli.banner before) ++ [started args]) = (Ok true, t1) ->
          isdir h t1 (path_join args.(Cli.project_path) args.(Cli.venv_name))
          = true ->
          prepare h (Cli.request_of args) (t1 ++ [venv_found args])
          = (Ok prepared, t2) ->
          Cli.main h recognise int_of_string argv before
          = (1, t2 ++ [configuring args.(Cli.port) args.(Cli.workers)]
                   ++ error_report h args (KeyError "PATH"))).
Proof.
  intros recognise int_of_string argv args P.
  pose proof (parse_args_framework recognise int_of_string argv args P) as H.
  assert (In args.(Cli.framework) ["fastapi"; "flask"; "django"]) as H'.
  { simpl in *. tauto. }
  split; [exact H|]. split; [intros; by apply supported_exec_start|].
  split; [done|]. split.
  - intros h t. by apply (deploy_api_supported h (Cli.request_of args)).
  - intros h before t1 prepared t2. by apply main_reaches_render.
Qed.

Lemma cli_framework_is_supported_witness :
  In sample_args.(Cli.framework) ["flask"; "fastapi"; "django"]
  /\ (exists command,
        _get_exec_start sample_args.(Cli.framework) "/srv/shop" "/srv/shop/venv"
          8000 2 120 = Ok command)
  /\ exists t2,
       Cli.main willing_host sample_recognise sample_int sample_argv []
       = (1, t2 ++ [configuring 8000 2]
                ++ error_report willing_host sample_args (KeyError "PATH")).
Proof.
  assert (Cli.parse_args sample_recognise sample_int sample_argv = inl sample_args)
    as P by (vm_compute; reflexivity).
  split; [|split].
  - apply (cli_framework_is_supported sample_recognise sample_int sample_argv
             sample_args P).
  - apply (cli_framework_is_supported sample_recognise sample_int sample_argv
             sample_args P).
  - eexists.
    eapply (proj2 (proj2 (proj2 (proj2
              (cli_framework_is_supported sample_recognise sample_int sample_argv
                 sample_args P)))) willing_host []).
    + vm_compute. reflexivity.
    + reflexivity.
    + vm_compute. reflexivity.
Defined.

(** C10.  The comment test looks at the line as read: white space before
    the [#] makes the line an assignment like any other, which gives a
    directive when there is an [=] after the [#] and an unpacking error
    when there is none.  A line that is not blank, does not start with
    [#] and has no [=] makes the whole reading fail with that
    [ValueError], wherever it stands in the file, and [read_environment]
    raises it once the file is read. *)
Theorem comment_detection_uses_raw_line :
  (forall ws rest,
     ws <> "" -> all_space ws = true ->
     startswith (ws +:+ "#" +:+ rest) "#" = false
     /\ is_assignment (ws +:+ "#" +:+ rest) = true
     /\ environment_line (ws +:+ "#" +:+ rest)
        = if contains_char "=" rest
          then Ok (directive (strip ("#" +:+ rest)))
          else Raise unpack_error)
  /\ (forall lines line acc,
        In line lines ->
        strip line <> "" -> startswith line "#" = false ->
        contains_char "=" line = false ->
        load_environment acc lines = Raise unpack_error)
  /\ (forall h project_path env_file t content line,
        given (Some env_file) = true ->
        isfile h t (path_join project_path env_file) = true ->
        read_text h
          (t ++ [logged ("Loading environment variables from " +:+ env_file)])
          (path_join project_path env_file) = Ok content ->
        In line (file_lines content) ->
        strip line <> "" -> startswith line "#" = false ->
        contains_char "=" line = false ->
        fst (read_environment h project_path (Some env_file) t)
        = Raise unpack_error).
Proof.
  split; [|split].
  - intros ws rest Hne Hws.
    pose proof (is_assignment_indented ws rest Hne Hws) as Ha.
    split; [|split; [done|]].
    + unfold is_assignment in Ha. apply andb_true_iff in Ha as [_ Ha].
      by apply negb_true_iff in Ha.
    + rewrite environment_line_spec, Ha.
      rewrite contains_char_app. change ("#" +:+ rest) with (String "#" rest).
      assert (contains_char "=" ws = false) as ->.
      { clear -Hws. induction ws as [|c ws IH]; [done|]. simpl in *.
        apply andb_true_iff in Hws as [Hc Hws]. rewrite (IH Hws).
        destruct (Ascii.eqb c "=") eqn:E; [|done].
        apply Ascii.eqb_eq in E as ->. vm_compute in Hc. discriminate. }
      simpl. unfold strip at 1. rewrite lstrip_space_app by done. done.
  - intros lines line acc Hin Hs Hc He.
    apply (load_environment_bad_line lines line); [done| |done].
    by apply is_assignment_true.
  - intros h project_path env_file t content line Hg Hf Hr Hin Hs Hc He.
    unfold read_environment. unfold bind at 1. rewrite Hg. unfold ask at 1.
    unfold the. cbn [default from_option]. unfold id.
    rewrite Hf. unfold bind at 1. unfold _log at 1. cbn [orb].
    unfold print, emit. unfold bind at 1. unfold lift at 1.
    unfold logged in Hr. rewrite Hr. unfold lift. cbn [fst].
    apply (load_environment_bad_line _ line); [done| |done].
    by apply is_assignment_true.
Qed.

Lemma comment_detection_uses_raw_line_witness :
  startswith ("  " +:+ "#" +:+ " comment") "#" = false
  /\ is_assignment ("  " +:+ "#" +:+ " comment") = true
  /\ environment_line ("  " +:+ "#" +:+ " comment")
     = if contains_char "=" " comment"
       then Ok (directive (strip ("#" +:+ " comment")))
       else Raise unpack_error.
Proof.
  apply (proj1 comment_detection_uses_raw_line "  " " comment").
  - discriminate.
  - reflexivity.
Defined.

(** * Further properties *)

(** ** White space *)







(** ** Rendering *)

Lemma convert_ok_iff template ts (mapping : gmap string value) :
  (exists out, convert template ts mapping = Ok out)
  <-> well_formed ts = true
      /\ forall k, In k (placeholders ts) -> is_Some (mapping !! k).
Proof.
  induction ts as [|t ts IH]; simpl.
  - split; [done|eauto].
  - assert (forall s, (exists out, cons_text s (convert template ts mapping) = Ok out)
                      <-> exists out, convert template ts mapping = Ok out) as Hcons.
    { intros s. destruct (convert template ts mapping); simpl;
        split; eauto; by intros [? ?]. }
    destruct t as [c| |name|name|pos]; simpl.
    + by rewrite Hcons, IH.
    + by rewrite Hcons, IH.
    + destruct (mapping !! name) as [v|] eqn:E.
      * rewrite Hcons, IH. split; intros [W H]; (split; [done|]).
        -- intros k [<- | Hk]; [by rewrite E|auto].
        -- auto.
      * split; [by intros [? ?]|]. intros [_ H].
        destruct (H name (or_introl eq_refl)) as [v Hv]. congruence.
    + destruct (mapping !! name) as [v|] eqn:E.
      * rewrite Hcons, IH. split; intros [W H]; (split; [done|]).
        -- intros k [<- | Hk]; [by rewrite E|auto].
        -- auto.
      * split; [by intros [? ?]|]. intros [_ H].
        destruct (H name (or_introl eq_refl)) as [v Hv]. congruence.
    + split; [by intros [? ?]|by intros [? _]].
Qed.

Lemma convert_contains template ts (mapping : gmap string value) out k v :
  convert template ts mapping = Ok out ->
  In k (placeholders ts) -> mapping !! k = Some v ->
  exists before after, out = before +:+ str v +:+ after.
Proof.
  revert out. induction ts as [|t ts IH]; intros out; simpl; [done|].
  assert (forall s out', cons_text s (convert template ts mapping) = Ok out' ->
            In k (placeholders ts) -> mapping !! k = Some v ->
            exists before after, out' = before +:+ str v +:+ after) as Hcons.
  { intros s out' E Hin Hk. destruct (convert template ts mapping) as [rest|]; [|done].
    simpl in E. injection E as <-.
    destruct (IH rest eq_refl Hin Hk) as (b & a & ->).
    exists (s +:+ b), a. by rewrite app_assoc_s. }
  destruct t as [c| |name|name|pos]; simpl; eauto.
  - destruct (mapping !! name) as [w|] eqn:E; [|done].
    intros Hout [<- | Hin] Hk; [|eauto].
    destruct (convert template ts mapping) as [rest|]; [|done].
    simpl in Hout. injection Hout as <-. exists "", rest.
    rewrite E in Hk. by injection Hk as ->.
  - destruct (mapping !! name) as [w|] eqn:E; [|done].
    intros Hout [<- | Hin] Hk; [|eauto].
    destruct (convert template ts mapping) as [rest|]; [|done].
    simpl in Hout. injection Hout as <-. exists "", rest.
    rewrite E in Hk. by injection Hk as ->.
  - done.
Qed.



(** X2.  Rendering gives a text exactly when every dollar sign of the
    template starts a placeholder and the mapping has every key the
    template asks for. *)
Theorem render_succeeds_iff :
  forall template (mapping : gmap string value),
    (exists out, substitute template mapping = Ok out)
    <-> well_formed (tokens template) = true
        /\ forall k, In k (placeholders (tokens template)) ->
                     is_Some (mapping !! k).
Proof. intros. apply convert_ok_iff. Qed.

(** X3.  The keys each template of the program needs: rendering gives a
    text exactly when the mapping has all of them.  The unit template needs
    [PATH] besides the seven keys the program passes; the four nginx
    templates need nginx's own variables besides the program's keys. *)
Theorem templates_required_keys :
  forall mapping : gmap string value,
    ((exists out, substitute SYSTEMD_TEMPLATE mapping = Ok out)
     <-> forall k, In k (unit_keys ++ ["PATH"]) -> is_Some (mapping !! k))
    /\ ((exists out, substitute NGINX_TEMPLATE mapping = Ok out)
        <-> forall k,
              In k (api_keys ++ ["host"; "remote_addr";
                                 "proxy_add_x_forwarded_for"; "scheme"]) ->
              is_Some (mapping !! k))
    /\ ((exists out, substitute NGINX_SSL_TEMPLATE mapping = Ok out)
        <-> forall k,
              In k (api_keys ++ ["request_uri"; "host"; "remote_addr";
                                 "proxy_add_x_forwarded_for"; "scheme"]) ->
              is_Some (mapping !! k))
    /\ ((exists out, substitute NGINX_FRONTEND_TEMPLATE mapping = Ok out)
        <-> forall k,
              In k (frontend_keys ++ ["host"; "remote_addr";
                                      "proxy_add_x_forwarded_for"; "scheme";
                                      "uri"]) ->
              is_Some (mapping !! k))
    /\ ((exists out, substitute NGINX_FRONTEND_SSL_TEMPLATE mapping = Ok out)
        <-> forall k,
              In k (frontend_keys ++ ["request_uri"; "host"; "remote_addr";
                                      "proxy_add_x_forwarded_for"; "scheme";
                                      "uri"]) ->
              is_Some (mapping !! k)).
Proof.
  intros mapping.
  repeat split; try (intros H; apply convert_ok_iff in H as [_ H]);
    try (intros H; apply convert_ok_iff; split; [by vm_compute|]);
    intros k Hk; apply H; vm_compute in Hk |- *; tauto.
Qed.

(** X4.  Values go into the text as they are: when rendering gives a text,
    the value of every key the template asks for stands in it verbatim,
    written as [str] writes it. *)
Theorem render_contains_values :
  forall template (mapping : gmap string value) out k v,
    substitute template mapping = Ok out ->
    In k (placeholders (tokens template)) ->
    mapping !! k = Some v ->
    exists before after, out = before +:+ str v +:+ after.
Proof. intros template mapping out k v. apply convert_contains. Qed.

Lemma render_contains_values_witness :
  exists before after, sample_nginx_text = before +:+ str (Int 8000) +:+ after.
Proof.
  apply (render_contains_values NGINX_TEMPLATE sample_nginx_mapping
           sample_nginx_text "port").
  - vm_compute. reflexivity.
  - vm_compute. right. left. reflexivity.
  - vm_compute. reflexivity.
Defined.

(** ** Lines *)

Lemma code_neq c n :
  (n < 256)%nat -> Ascii.eqb c (char n) = false -> (code c =? n)%nat = false.
Proof.
  intros Hn H. apply Nat.eqb_neq. intros E.
  apply Ascii.eqb_neq in H. apply H. unfold char, code in *.
  by rewrite <- E, ascii_nat_embedding.
Qed.

Lemma startswith_empty s : startswith s "" = true.
Proof. by destruct s. Qed.

Lemma iter_lines_one_line l : forall cur rest,
  one_line l = true -> iter_lines cur (l +:+ rest) = iter_lines (cur +:+ l) rest.
Proof.
  induction l as [|c l IH]; intros cur rest H.
  - by rewrite app_nil_l, app_empty_r.
  - unfold one_line in H. simpl in H.
    rewrite !negb_orb in H.
    apply andb_true_iff in H as [[Hr Hl]%andb_true_iff [Hn Hl']%andb_true_iff].
    apply negb_true_iff in Hr, Hn.
    rewrite app_cons. simpl.
    rewrite (code_neq c 10), (code_neq c 13) by (done || lia).
    rewrite IH by (unfold one_line; by rewrite Hl, Hl').
    by rewrite app_assoc_s.
Qed.

Lemma file_lines_text ls :
  forallb one_line ls = true ->
  file_lines (text ls) = map (fun l => l +:+ newline) ls.
Proof.
  unfold file_lines. induction ls as [|l ls IH]; [done|].
  simpl. intros [Hl Hls]%andb_true_iff.
  rewrite iter_lines_one_line by done. rewrite app_nil_l.
  change (newline +:+ text ls) with (String (char 10) (text ls)).
  simpl. by rewrite IH.
Qed.

Lemma file_lines_crlf ls :
  forallb one_line ls = true ->
  file_lines (crlf_text ls) = map (fun l => l +:+ newline) ls.
Proof.
  unfold file_lines. induction ls as [|l ls IH]; [done|].
  simpl. intros [Hl Hls]%andb_true_iff.
  rewrite iter_lines_one_line by done. rewrite app_nil_l.
  change (chr 13 +:+ newline +:+ crlf_text ls)
    with (String (char 13) (String (char 10) (crlf_text ls))).
  simpl. rewrite startswith_empty. by rewrite IH.
Qed.

(** X5.  Line endings do not matter: a file whose lines end in carriage
    return and line feed is read as the same lines, each closed by a line
    feed, as the file whose lines end in a line feed, and so gives the same
    directives or the same error. *)
Theorem environment_file_line_endings :
  forall ls,
    forallb one_line ls = true ->
    file_lines (crlf_text ls) = map (fun l => l +:+ newline) ls
    /\ file_lines (crlf_text ls) = file_lines (text ls)
    /\ load_environment "" (file_lines (crlf_text ls))
       = load_environment "" (file_lines (text ls)).
Proof.
  intros ls H. rewrite file_lines_crlf, file_lines_text by done. done.
Qed.

Lemma environment_file_line_endings_witness :
  file_lines (crlf_text ["A=1"; ""; "B=two=three"])
  = map (fun l => l +:+ newline) ["A=1"; ""; "B=two=three"]
  /\ file_lines (crlf_text ["A=1"; ""; "B=two=three"])
     = file_lines (text ["A=1"; ""; "B=two=three"])
  /\ load_environment "" (file_lines (crlf_text ["A=1"; ""; "B=two=three"]))
     = load_environment "" (file_lines (text ["A=1"; ""; "B=two=three"])).
Proof.
  apply (environment_file_line_endings ["A=1"; ""; "B=two=three"]).
  reflexivity.
Defined.

Lemma load_environment_closed lines : forall acc,
  load_environment acc lines
  = if well_formed_lines lines then Ok (acc +:+ directives lines)
    else Raise unpack_error.
Proof.
  induction lines as [|line rest IH]; intros acc.
  - unfold directives. simpl. by rewrite app_empty_r.
  - simpl. rewrite environment_line_spec. unfold directives. simpl List.filter.
    destruct (is_assignment line) eqn:Ha; simpl.
    + destruct (contains_char "=" line) eqn:Hc; simpl; [|done].
      rewrite IH. destruct (well_formed_lines rest); [|done].
      simpl. by rewrite app_assoc_s.
    + rewrite app_empty_r. apply IH.
Qed.

(** X6.  Reading the lines is all or nothing: the result is the directives
    of all assignment lines, after what had been gathered before, when each
    of them has an [=], and the unpacking error otherwise, never a part of
    the directives.  Reading two runs of lines one after the other is
    reading the first and going on from its result with the second. *)
Theorem load_environment_all_or_nothing :
  forall acc lines more,
    load_environment acc lines
    = (if well_formed_lines lines then Ok (acc +:+ directives lines)
       else Raise unpack_error)
    /\ load_environment acc (lines ++ more)
       = match load_environment acc lines with
         | Ok gathered => load_environment gathered more
         | Raise e => Raise e
         end.
Proof.
  intros acc lines more. split; [apply load_environment_closed|].
  revert acc. induction lines as [|line rest IH]; intros acc; simpl; [done|].
  destruct (environment_line line); [apply IH|done].
Qed.

(** ** Paths *)






Section Dependencies.
Variable h : Host.

Lemma check_package_run verbose missing item t :
  exists probes,
    snd (Cli.check_package h verbose missing item t) = t ++ probes
    /\ forallb is_probe probes = true
    /\ probed missing [item.2] probes
         (fst (Cli.check_package h verbose missing item t)).
Proof.
  destruct item as [package install_name].
  unfold Cli.check_package, bind, try_except, Cli.run, bind, ask, emit, print,
    emit, raise, ret, lift.
  destruct verbose; simpl;
    (destruct (String.eqb package "nginx");
     [|destruct (String.eqb package "certbot")]); simpl.
  all: match goal with
       | |- context [run_argv h ?tr ?argv] =>
           destruct (run_argv h tr argv) as [c|e] eqn:R; simpl
       end.
  all: try match goal with
       | |- context [returncode ?c =? 0] => destruct (returncode c =? 0); simpl
       end.
  all: try destruct e; simpl.
  all: rewrite <- ?app_assoc; simpl; eexists; split; [reflexivity|]; split; [done|].
  all: try (split; [done|]; 
            first [ by eexists [], _ | by eexists [_], _ ]).
  all: first [ exists []; rewrite app_nil_r; split; [done|]; apply sublist_nil_l 
             | exists [install_name]; done ].
Qed.

Lemma probed_step missing item rest p1 p2 found r :
  probed missing [item] p1 (Ok found) ->
  probed found rest p2 r ->
  probed missing (item :: rest) (p1 ++ p2) r.
Proof.
  intros (a1 & -> & S1). destruct r as [out|e]; simpl.
  - intros (a2 & -> & S2). exists (a1 ++ a2). rewrite app_assoc. split; [done|].
    change (item :: rest) with ([item] ++ rest). by apply sublist_app.
  - intros (N & pre & argv & ->). split; [done|].
    exists (p1 ++ pre), argv. by rewrite app_assoc.
Qed.

Lemma check_packages_run verbose items : forall missing t,
  exists probes,
    snd (Cli.check_packages h verbose missing items t) = t ++ probes
    /\ forallb is_probe probes = true
    /\ probed missing (map snd items) probes
         (fst (Cli.check_packages h verbose missing items t)).
Proof.
  induction items as [|item rest IH]; intros missing t; simpl.
  - exists []. rewrite !app_nil_r. repeat split.
    exists []. by rewrite app_nil_r.
  - unfold bind.
    destruct (check_package_run verbose missing item t) as (p1 & E1 & F1 & P1).
    destruct (Cli.check_package h verbose missing item t) as [[found|e] t1];
      simpl in E1, P1; subst t1.
    + destruct (IH found (t ++ p1)) as (p2 & E2 & F2 & P2).
      exists (p1 ++ p2). rewrite E2, app_assoc, forallb_app, F1, F2.
      repeat split. by apply (probed_step _ _ _ _ _ found).
    + exists p1. split; [done|]. split; [done|]. exact P1.
Qed.

Lemma probe_not_install e : is_probe e = true -> is_install e = false.
Proof.
  destruct e; try done. simpl. intros [_ H]%andb_true_iff.
  by apply negb_true_iff in H.
Qed.

Lemma probe_no_prompt e : is_probe e = true -> no_prompt e = true.
Proof. by destruct e. Qed.

Lemma probe_quiet e : is_probe e = true -> command_failed e = false.
Proof. destruct e as [| | |argv check r| |]; try done. by destruct check. Qed.

Lemma probes_calm probes :
  forallb is_probe probes = true ->
  forallb no_prompt probes = true
  /\ existsb is_install probes = false
  /\ existsb command_failed probes = false.
Proof.
  intros F. rewrite forallb_forall in F. split; [|split].
  - rewrite forallb_forall. intros e He. by apply probe_no_prompt, F.
  - apply not_true_iff_false. intros (e & He & Hi)%existsb_exists.
    by rewrite (probe_not_install e (F e He)) in Hi.
  - apply not_true_iff_false. intros (e & He & Hi)%existsb_exists.
    by rewrite (probe_quiet e (F e He)) in Hi.
Qed.

Lemma check_package_found verbose missing item t :
  In item Cli.required_packages ->
  (forall t' argv, In argv probe_commands -> exists c, run_argv h t' argv = Ok c) ->
  (forall t' c, run_argv h t' ["dpkg"; "-l"; "python3-certbot-nginx"] = Ok c ->
                returncode c = 0) ->
  exists probes,
    forallb is_probe probes = true
    /\ Cli.check_package h verbose missing item t = (Ok missing, t ++ probes).
Proof.
  intros Hin Hrun Hdpkg.
  unfold Cli.check_package, bind, try_except, Cli.run, bind, ask, emit, print,
    emit, raise, ret, lift.
  simpl in Hin. destruct Hin as [<- | [<- | [<- | []]]]; destruct verbose; simpl.
  all: match goal with
       | |- context [run_argv h ?tr ?argv] =>
           let R := fresh "R" in
           destruct (Hrun tr argv) as [c R]; [vm_compute; tauto|];
           try pose proof (Hdpkg tr c R) as Hd; rewrite R; simpl
       end.
  all: try rewrite Hd; simpl.
  all: rewrite <- ?app_assoc; simpl; eexists; split; [|reflexivity]; done.
Qed.

Lemma check_packages_found verbose items : forall missing t,
  (forall item, In item items -> In item Cli.required_packages) ->
  (forall t' argv, In argv probe_commands -> exists c, run_argv h t' argv = Ok c) ->
  (forall t' c, run_argv h t' ["dpkg"; "-l"; "python3-certbot-nginx"] = Ok c ->
                returncode c = 0) ->
  exists probes,
    Cli.check_packages h verbose missing items t = (Ok missing, t ++ probes)
    /\ forallb is_probe probes = true.
Proof.
  intros missing t Hitems Hrun Hdpkg. revert missing t.
  induction items as [|item rest IH]; intros missing t; simpl.
  - exists []. by rewrite app_nil_r.
  - unfold bind.
    destruct (check_package_found verbose missing item t) as (p1 & F1 & ->);
      [apply Hitems; by left|done|done|].
    destruct IH with (missing := missing) (t := t ++ p1) as (p2 & E2 & F2).
    { intros i Hi. apply Hitems. by right. }
    exists (p1 ++ p2). by rewrite E2, app_assoc, forallb_app, F1, F2.
Qed.

Lemma install_block_trace packages :
  emits (fun _ => true)
    (try_except
       (Cli.log "Updating package lists..." ;;;
        Cli.run h ["sudo"; "apt-get"; "update"] true ;;;
        Cli.log ("Installing missing packages: "
                 +:+ join ", " packages +:+ "...") ;;;
        Cli.run h (["sudo"; "apt-get"; "install"; "-y"] ++ packages) true ;;;
        Cli.log "Dependencies installed successfully!" ;;;
        ret true)
       (fun e => match e with
                 | CalledProcessError _ _ =>
                     Cli.log ("Error installing dependencies: "
                              +:+ Cli.str_exception h e) ;;;
                     ret false
                 | _ => raise e
                 end)).
Proof.
  apply emits_try.
  - apply emits_bind; [by apply emits_cli_log|intros _].
    apply emits_bind; [by apply emits_run|intros _].
    apply emits_bind; [by apply emits_cli_log|intros _].
    apply emits_bind; [by apply emits_run|intros _].
    apply emits_bind; [by apply emits_cli_log|intros _]. apply emits_ret.
  - intros e. destruct e; try apply emits_raise.
    apply emits_bind; [by apply emits_cli_log|intros _]. apply emits_ret.
Qed.

End Dependencies.


(** X9.  When each of the three probes runs to completion (the program is
    found and can be executed) and [dpkg -l] exits with status 0, the
    dependency check answers yes without asking the user and without
    running anything with [sudo]; the exit status of [nginx -v] and of
    [certbot --version] plays no part. *)
Theorem dependencies_present_no_prompt :
  forall h verbose t,
    (forall t' argv, In argv probe_commands ->
                     exists c, run_argv h t' argv = Ok c) ->
    (forall t' c, run_argv h t' ["dpkg"; "-l"; "python3-certbot-nginx"] = Ok c ->
                  returncode c = 0) ->
    exists new,
      Cli.check_dependencies h verbose t = (Ok true, t ++ new)
      /\ forallb no_prompt new = true
      /\ existsb is_install new = false.
Proof.
  intros h verbose t Hfound Hdpkg.
  unfold Cli.check_dependencies. unfold bind at 1. unfold Cli.log at 1, print, emit.
  unfold bind at 1.
  destruct (check_packages_found h verbose Cli.required_packages []
              (t ++ [Print (esc +:+ "[1m[agent-deployer]" +:+ esc +:+ "[0m "
                            +:+ "Checking for required system dependencies...")])
              ltac:(done) Hfound Hdpkg)
    as (probes & E & F).
  rewrite E. clear E.
  unfold bind, Cli.log, print, emit, ret.
  destruct (probes_calm probes F) as (F1 & F2 & _).
  eexists ([_] ++ probes ++ [_]). rewrite <- !app_assoc. split; [reflexivity|].
  simpl. rewrite forallb_app, existsb_app. simpl. rewrite orb_false_r, andb_true_r.
  done.
Qed.

Lemma dependencies_present_no_prompt_witness :
  exists new,
    Cli.check_dependencies grumpy_host false [] = (Ok true, [] ++ new)
    /\ forallb no_prompt new = true
    /\ existsb is_install new = false.
Proof.
  apply (dependencies_present_no_prompt grumpy_host false []).
  - intros t' argv _. simpl. destruct (String.eqb (hd "" argv) "dpkg"); by eexists.
  - intros t' c. simpl. intros [= <-]. reflexivity.
Defined.

(** X10.  Nothing is installed unasked: in the trace of the dependency
    check, whatever is run with [sudo] comes after the user was asked and
    gave an answer that reads [y] once lowered and stripped. *)
Theorem no_install_without_consent :
  forall h verbose t, exists calm tail,
    snd (Cli.check_dependencies h verbose t) = t ++ calm ++ tail
    /\ existsb is_install calm = false
    /\ (tail = []
        \/ exists prompt answer rest,
             tail = Input prompt (Ok answer) :: rest
             /\ strip (lower answer) = "y").
Proof.
  intros h verbose t.
  unfold Cli.check_dependencies. unfold bind at 1. unfold Cli.log at 1, print, emit.
  unfold bind at 1.
  destruct (check_packages_run h verbose Cli.required_packages []
              (t ++ [Print (esc +:+ "[1m[agent-deployer]" +:+ esc +:+ "[0m "
                            +:+ "Checking for required system dependencies...")]))
    as (probes & E & F & _).
  destruct (probes_calm probes F) as (_ & Hp & _).
  destruct (Cli.check_packages h verbose [] Cli.required_packages _)
    as [[added|e0] t1]; simpl in E; subst t1; cbn [app]; cycle 1.
  { simpl. eexists ([_] ++ probes), []. rewrite <- !app_assoc, app_nil_r.
    split; [reflexivity|]. split; [|by left]. simpl. done. }
  destruct added as [|package added].
  - unfold bind, Cli.log, print, emit, ret. simpl.
    eexists ([_] ++ probes ++ [_]), []. rewrite <- !app_assoc, app_nil_r.
    split; [reflexivity|]. split; [|by left].
    simpl. rewrite existsb_app, Hp. done.
  - unfold bind at 1. unfold Cli.log at 1, print, emit.
    unfold bind at 1. unfold Cli.input.
    unfold bind at 1. unfold ask at 1. unfold bind at 1. unfold emit at 1.
    unfold lift at 1.
    match goal with
    | |- context [read_input h ?tr ?p] => destruct (read_input h tr p) as [answer|e] eqn:R
    end.
    + destruct (String.eqb (strip (lower answer)) "y") eqn:Y; cbv beta iota.
      * match goal with
        | |- context [try_except ?m ?k ?tr] =>
            destruct (install_block_trace h (package :: added) tr) as (rest & E & _);
            cbn [app] in E; rewrite E; clear E
        end.
        eexists ([_] ++ probes ++ [_]), (_ :: rest). rewrite <- !app_assoc.
        split; [reflexivity|]. split.
        -- simpl. rewrite existsb_app, Hp. done.
        -- right. eexists _, answer, rest. split; [reflexivity|].
           by apply String.eqb_eq.
      * unfold bind, Cli.log, print, emit, ret. simpl.
        eexists ([_] ++ probes ++ [_; _; _]), []. rewrite <- !app_assoc, app_nil_r.
        split; [reflexivity|]. split; [|by left].
        simpl. rewrite existsb_app, Hp. done.
    + simpl. eexists ([_] ++ probes ++ [_; _]), []. rewrite <- !app_assoc, app_nil_r.
      split; [reflexivity|]. split; [|by left].
      simpl. rewrite existsb_app, Hp. done.
Qed.

Section ParserFacts.
Variable recognise : list string -> list (string * option string) + Z.
Variable int_of_string : string -> option Z.

Lemma find_argument_some flag a :
  Cli.find_argument flag = Some a -> In a Cli.arguments /\ a.(Cli.option_string) = flag.
Proof.
  intros [Hin H]%find_some. split; [done|]. by apply String.eqb_eq.
Qed.

Lemma find_argument_declared a :
  In a Cli.arguments -> Cli.find_argument a.(Cli.option_string) = Some a.
Proof.
  unfold Cli.arguments, Cli.add_argument. simpl.
  intros H. repeat (destruct H as [<- | H]; [reflexivity|]). done.
Qed.

Lemma dest_determines_flag a b :
  In a Cli.arguments -> In b Cli.arguments ->
  a.(Cli.dest) = b.(Cli.dest) -> a = b.
Proof.
  unfold Cli.arguments, Cli.add_argument. simpl.
  intros Ha Hb.
  repeat (destruct Ha as [<- | Ha]);
    try done; simpl;
    repeat (destruct Hb as [<- | Hb]); try done; simpl; discriminate.
Qed.

Lemma take_action_stored ns flag argument :
  Cli.take_action int_of_string ns (flag, argument)
  = match Cli.find_argument flag with
    | Some a =>
        match stored int_of_string a argument with
        | Some v => inl (<[a.(Cli.dest) := v]> ns)
        | None => inr Cli.exit_usage
        end
    | None => inr Cli.exit_usage
    end.
Proof.
  unfold Cli.take_action, stored.
  destruct (Cli.find_argument flag) as [a|]; [|done].
  destruct (Cli.act a) as [[|]|], argument as [v|]; try done.
  - by destruct (int_of_string v).
  - by destruct (Cli.in_choices a v).
Qed.

Lemma take_actions_app l1 : forall ns l2,
  Cli.take_actions int_of_string ns (l1 ++ l2)
  = match Cli.take_actions int_of_string ns l1 with
    | inl ns1 => Cli.take_actions int_of_string ns1 l2
    | inr status => inr status
    end.
Proof.
  induction l1 as [|o l1 IH]; intros ns l2; simpl; [done|].
  destruct (Cli.take_action int_of_string ns o); [apply IH|done].
Qed.

Lemma take_actions_status occurrences : forall ns status,
  Cli.take_actions int_of_string ns occurrences = inr status -> status = 2.
Proof.
  induction occurrences as [|[flag argument] rest IH]; intros ns status;
    cbn [Cli.take_actions]; [done|].
  rewrite take_action_stored.
  destruct (Cli.find_argument flag) as [a|]; [|by intros [= <-]].
  destruct (stored int_of_string a argument); [apply IH|by intros [= <-]].
Qed.

Lemma take_actions_acceptable occurrences : forall ns,
  (exists ns', Cli.take_actions int_of_string ns occurrences = inl ns')
  <-> forallb (acceptable int_of_string) occurrences = true.
Proof.
  induction occurrences as [|[flag argument] rest IH]; intros ns;
    cbn [Cli.take_actions forallb].
  - split; eauto.
  - rewrite take_action_stored. unfold acceptable at 1. cbn [fst snd andb].
    destruct (Cli.find_argument flag) as [a|]; [|split; [by intros [? ?]|done]].
    destruct (stored int_of_string a argument); [apply IH|].
    split; [by intros [? ?]|done].
Qed.

(** An option that does not occur leaves its attribute alone. *)
Lemma take_actions_untouched a occurrences : forall ns ns',
  In a Cli.arguments ->
  ~ In a.(Cli.option_string) (map fst occurrences) ->
  Cli.take_actions int_of_string ns occurrences = inl ns' ->
  ns' !! a.(Cli.dest) = ns !! a.(Cli.dest).
Proof.
  induction occurrences as [|[flag argument] rest IH]; intros ns ns' Ha Hnot;
    cbn [Cli.take_actions].
  - by intros [= <-].
  - rewrite take_action_stored.
    destruct (Cli.find_argument flag) as [b|] eqn:Hb; [|done].
    destruct (stored int_of_string b argument) as [v|]; [|done].
    intros E. rewrite (IH _ _ Ha) by (done || (simpl in Hnot; tauto)).
    apply find_argument_some in Hb as [Hin <-].
    apply lookup_insert_ne. intros Hd.
    apply Hnot. left. simpl. by rewrite (dest_determines_flag b a Hin Ha Hd).
Qed.

(** The last occurrence of an option decides its attribute. *)
Lemma take_actions_last a pre argument post ns ns' :
  In a Cli.arguments ->
  ~ In a.(Cli.option_string) (map fst post) ->
  Cli.take_actions int_of_string ns (pre ++ (a.(Cli.option_string), argument) :: post)
  = inl ns' ->
  exists v, stored int_of_string a argument = Some v
            /\ ns' !! a.(Cli.dest) = Some v.
Proof.
  intros Ha Hnot. rewrite take_actions_app.
  destruct (Cli.take_actions int_of_string ns pre) as [ns1|]; [|done].
  cbn [Cli.take_actions]. rewrite take_action_stored, (find_argument_declared a Ha).
  destruct (stored int_of_string a argument) as [v|]; [|done].
  intros E. exists v. split; [done|].
  rewrite (take_actions_untouched a post _ _ Ha Hnot E).
  apply lookup_insert_eq.
Qed.

Lemma last_occurrence (flag : string) (occurrences : list (string * option string)) :
  In flag (map fst occurrences) ->
  exists pre argument post,
    occurrences = pre ++ (flag, argument) :: post
    /\ ~ In flag (map fst post).
Proof.
  induction occurrences as [|[f x] rest IH]; simpl; [done|].
  intros H.
  destruct (in_dec String.string_dec flag (map fst rest)) as [Hin|Hnot].
  - destruct (IH Hin) as (pre & argument & post & -> & Hp).
    by exists ((f, x) :: pre), argument, post.
  - destruct H as [-> | H]; [|done].
    by exists [], x, rest.
Qed.

Lemma defaults_lookup a :
  In a Cli.arguments -> Cli.defaults !! a.(Cli.dest) = Some a.(Cli.default_value).
Proof.
  unfold Cli.arguments, Cli.add_argument. simpl.
  intros H. repeat (destruct H as [<- | H]; [by vm_compute|]). done.
Qed.

(** After all occurrences an attribute holds its default when its option
    did not occur, and what the last occurrence stored when it did. *)
Lemma final_value a occurrences ns' :
  In a Cli.arguments ->
  Cli.take_actions int_of_string Cli.defaults occurrences = inl ns' ->
  (~ In a.(Cli.option_string) (map fst occurrences)
   /\ ns' !! a.(Cli.dest) = Some a.(Cli.default_value))
  \/ (In a.(Cli.option_string) (map fst occurrences)
      /\ exists argument v,
           stored int_of_string a argument = Some v
           /\ ns' !! a.(Cli.dest) = Some v).
Proof.
  intros Ha E.
  destruct (in_dec String.string_dec a.(Cli.option_string) (map fst occurrences))
    as [Hin|Hnot].
  - right. split; [done|].
    destruct (last_occurrence _ _ Hin) as (pre & argument & post & -> & Hp).
    destruct (take_actions_last a pre argument post _ _ Ha Hp E) as (v & S & L).
    by exists argument, v.
  - left. split; [done|].
    by rewrite (take_actions_untouched a occurrences _ _ Ha Hnot E), defaults_lookup.
Qed.

Lemma finish_fields ns args :
  Cli.finish ns = inl args ->
  Cli.attr_str ns "project_path" = Some args.(Cli.project_path)
  /\ Cli.attr_str ns "service_name" = Some args.(Cli.service_name)
  /\ Cli.attr_str ns "framework" = Some args.(Cli.framework)
  /\ Cli.attr_int ns "port" = Some args.(Cli.port)
  /\ Cli.attr_str ns "venv_name" = Some args.(Cli.venv_name)
  /\ Cli.attr_int ns "workers" = Some args.(Cli.workers)
  /\ Cli.attr_int ns "timeout" = Some args.(Cli.timeout)
  /\ Cli.attr_str ns "frontend_url_prefix" = Some args.(Cli.frontend_url_prefix)
  /\ Cli.attr_str ns "api_url_prefix" = Some args.(Cli.api_url_prefix)
  /\ args.(Cli.domain) = Cli.attr_str ns "domain"
  /\ args.(Cli.enable_db) = Cli.attr_bool ns "enable_db"
  /\ args.(Cli.env_file) = Cli.attr_str ns "env_file"
  /\ args.(Cli.verbose) = Cli.attr_bool ns "verbose"
  /\ args.(Cli.frontend_path) = Cli.attr_str ns "frontend_path".
Proof.
  unfold Cli.finish.
  destruct (Cli.attr_str ns "project_path"); [|done].
  destruct (Cli.attr_str ns "service_name"); [|done].
  destruct (Cli.attr_str ns "framework"); [|done].
  destruct (Cli.attr_int ns "port"); [|done].
  destruct (Cli.attr_str ns "venv_name"); [|done].
  destruct (Cli.attr_int ns "workers"); [|done].
  destruct (Cli.attr_int ns "timeout"); [|done].
  destruct (Cli.attr_str ns "frontend_url_prefix"); [|done].
  destruct (Cli.attr_str ns "api_url_prefix"); [|done].
  intros [= <-]. simpl. repeat split.
Qed.

Lemma parse_args_inv argv args :
  Cli.parse_args recognise int_of_string argv = inl args ->
  exists occurrences ns,
    recognise argv = inl occurrences
    /\ Cli.take_actions int_of_string Cli.defaults occurrences = inl ns
    /\ Cli.finish ns = inl args.
Proof.
  unfold Cli.parse_args.
  destruct (recognise argv) as [occurrences|]; [|done].
  destruct (Cli.take_actions _ _ _) as [ns|] eqn:E; [|done].
  intros F. by exists occurrences, ns.
Qed.

End ParserFacts.

Lemma parse_final_value recognise int_of_string argv occurrences args a :
  recognise argv = inl occurrences ->
  Cli.parse_args recognise int_of_string argv = inl args ->
  In a Cli.arguments ->
  exists ns,
    Cli.finish ns = inl args
    /\ ((~ In a.(Cli.option_string) (map fst occurrences)
         /\ ns !! a.(Cli.dest) = Some a.(Cli.default_value))
        \/ (In a.(Cli.option_string) (map fst occurrences)
            /\ exists argument v,
                 stored int_of_string a argument = Some v
                 /\ ns !! a.(Cli.dest) = Some v)).
Proof.
  intros R P Ha.
  destruct (parse_args_inv recognise int_of_string argv args P)
    as (occs & ns & R' & T & F).
  rewrite R in R'. injection R' as <-.
  exists ns. split; [done|]. by apply final_value.
Qed.

(** Settles [attribute = default] for the option [a] that did not occur. *)
Ltac unset_option R P a :=
  let H := fresh in
  intros H;
  destruct (parse_final_value _ _ _ _ _ a R P) as (?ns & ?F & [[_ ?L] | [?Hin _]]);
    [vm_compute; tauto | | by destruct H];
  match goal with
  | F : Cli.finish ?ns = inl _, L : ?ns !! _ = _ |- _ =>
      apply finish_fields in F; simpl in L;
      unfold Cli.attr_str, Cli.attr_int, Cli.attr_bool in F; rewrite !L in F;
      simpl in F; intuition congruence
  end.

(** X11.  An accepted command line in which an optional option does not
    occur gives that option its declared default: 2 workers, a timeout of
    120 (not the 30 of [deploy_api]'s own signature), no domain, no
    environment file, no frontend path, both switches off, [/] and [/api]
    for the two prefixes. *)
Theorem unset_options_take_defaults :
  forall recognise int_of_string argv occurrences args,
    recognise argv = inl occurrences ->
    Cli.parse_args recognise int_of_string argv = inl args ->
    (~ In "--workers" (map fst occurrences) -> args.(Cli.workers) = 2)
    /\ (~ In "--timeout" (map fst occurrences) -> args.(Cli.timeout) = 120)
    /\ (~ In "--domain" (map fst occurrences) -> args.(Cli.domain) = None)
    /\ (~ In "--enable-db" (map fst occurrences) -> args.(Cli.enable_db) = false)
    /\ (~ In "--env-file" (map fst occurrences) -> args.(Cli.env_file) = None)
    /\ (~ In "--verbose" (map fst occurrences) -> args.(Cli.verbose) = false)
    /\ (~ In "--frontend-path" (map fst occurrences) ->
        args.(Cli.frontend_path) = None)
    /\ (~ In "--frontend-url-prefix" (map fst occurrences) ->
        args.(Cli.frontend_url_prefix) = "/")
    /\ (~ In "--api-url-prefix" (map fst occurrences) ->
        args.(Cli.api_url_prefix) = "/api").
Proof.
  intros recognise int_of_string argv occurrences args R P.
  repeat split.
  - unset_option R P (Cli.add_argument "--workers" "workers" false (Cli.store true) None (Int 2)).
  - unset_option R P (Cli.add_argument "--timeout" "timeout" false (Cli.store true) None (Int 120)).
  - unset_option R P (Cli.add_argument "--domain" "domain" false (Cli.store false) None NoneV).
  - unset_option R P (Cli.add_argument "--enable-db" "enable_db" false Cli.store_true None (Bool false)).
  - unset_option R P (Cli.add_argument "--env-file" "env_file" false (Cli.store false) None NoneV).
  - unset_option R P (Cli.add_argument "--verbose" "verbose" false Cli.store_true None (Bool false)).
  - unset_option R P (Cli.add_argument "--frontend-path" "frontend_path" false (Cli.store false) None NoneV).
  - unset_option R P (Cli.add_argument "--frontend-url-prefix" "frontend_url_prefix" false (Cli.store false) None (Str "/")).
  - unset_option R P (Cli.add_argument "--api-url-prefix" "api_url_prefix" false (Cli.store false) None (Str "/api")).
Qed.

Lemma unset_options_take_defaults_witness :
  (~ In "--workers" (map fst sample_occurrences) -> sample_args.(Cli.workers) = 2)
  /\ (~ In "--timeout" (map fst sample_occurrences) ->
      sample_args.(Cli.timeout) = 120)
  /\ (~ In "--domain" (map fst sample_occurrences) ->
      sample_args.(Cli.domain) = None)
  /\ (~ In "--enable-db" (map fst sample_occurrences) ->
      sample_args.(Cli.enable_db) = false)
  /\ (~ In "--env-file" (map fst sample_occurrences) ->
      sample_args.(Cli.env_file) = None)
  /\ (~ In "--verbose" (map fst sample_occurrences) ->
      sample_args.(Cli.verbose) = false)
  /\ (~ In "--frontend-path" (map fst sample_occurrences) ->
      sample_args.(Cli.frontend_path) = None)
  /\ (~ In "--frontend-url-prefix" (map fst sample_occurrences) ->
      sample_args.(Cli.frontend_url_prefix) = "/")
  /\ (~ In "--api-url-prefix" (map fst sample_occurrences) ->
      sample_args.(Cli.api_url_prefix) = "/api").
Proof.
  apply (unset_options_take_defaults sample_recognise sample_int sample_argv
           sample_occurrences sample_args).
  - reflexivity.
  - reflexivity.
Defined.

Lemma accepted_required_occur recognise int_of_string argv occurrences args :
  recognise argv = inl occurrences ->
  Cli.parse_args recognise int_of_string argv = inl args ->
  forall flag, In flag required_flags -> In flag (map fst occurrences).
Proof.
  intros R P flag Hflag.
  assert (forall a, In a Cli.arguments -> a.(Cli.required) = true ->
                    a.(Cli.default_value) = NoneV) as Hnone.
  { unfold Cli.arguments, Cli.add_argument. simpl.
    intros a H. repeat (destruct H as [<- | H]; [by simpl|]). done. }
  unfold required_flags in Hflag. apply in_map_iff in Hflag as (a & <- & Ha).
  apply filter_In in Ha as [Ha Hreq].
  destruct (parse_final_value _ _ _ _ _ a R P Ha) as (ns & F & [[_ L] | [Hin _]]);
    [|done].
  rewrite (Hnone a Ha Hreq) in L. apply finish_fields in F.
  unfold Cli.attr_str, Cli.attr_int in F.
  revert Ha Hreq L. unfold Cli.arguments, Cli.add_argument. simpl.
  intros Ha. repeat (destruct Ha as [<- | Ha]; [simpl; intros ? L; try done;
    rewrite L in F; intuition discriminate|]). done.
Qed.

Lemma stored_text int_of_string a argument v :
  a.(Cli.act) = Cli.store false ->
  stored int_of_string a argument = Some v -> exists s, v = Str s.
Proof.
  unfold stored. intros ->. destruct argument as [x|]; [|done].
  destruct (Cli.in_choices a x); [|done]. intros [= <-]. eauto.
Qed.

Lemma stored_number int_of_string a argument v :
  a.(Cli.act) = Cli.store true ->
  stored int_of_string a argument = Some v -> exists n, v = Int n.
Proof.
  unfold stored. intros ->. destruct argument as [x|]; [|done].
  destruct (int_of_string x); [|done]. intros [= <-]. eauto.
Qed.

Lemma final_text int_of_string a occurrences ns :
  In a Cli.arguments -> a.(Cli.act) = Cli.store false ->
  Cli.take_actions int_of_string Cli.defaults occurrences = inl ns ->
  In a.(Cli.option_string) (map fst occurrences)
  \/ (exists s, a.(Cli.default_value) = Str s) ->
  exists s, Cli.attr_str ns a.(Cli.dest) = Some s.
Proof.
  intros Ha Hact T Hor. unfold Cli.attr_str.
  destruct (final_value int_of_string a occurrences ns Ha T)
    as [[Hnot ->] | [_ (argument & v & S & ->)]].
  - destruct Hor as [|[s ->]]; [done|eauto].
  - destruct (stored_text _ _ _ _ Hact S) as [s ->]. eauto.
Qed.

Lemma final_number int_of_string a occurrences ns :
  In a Cli.arguments -> a.(Cli.act) = Cli.store true ->
  Cli.take_actions int_of_string Cli.defaults occurrences = inl ns ->
  In a.(Cli.option_string) (map fst occurrences)
  \/ (exists n, a.(Cli.default_value) = Int n) ->
  exists n, Cli.attr_int ns a.(Cli.dest) = Some n.
Proof.
  intros Ha Hact T Hor. unfold Cli.attr_int.
  destruct (final_value int_of_string a occurrences ns Ha T)
    as [[Hnot ->] | [_ (argument & v & S & ->)]].
  - destruct Hor as [|[s ->]]; [done|eauto].
  - destruct (stored_number _ _ _ _ Hact S) as [s ->]. eauto.
Qed.

(** X12.  An accepted command line has every required option in it:
    project path, service name, framework, port and virtual-environment
    name. *)
Theorem required_options_occur :
  forall recognise int_of_string argv occurrences args,
    recognise argv = inl occurrences ->
    Cli.parse_args recognise int_of_string argv = inl args ->
    required_flags
    = ["--project-path"; "--service-name"; "--framework"; "--port"; "--venv-name"]
    /\ forall flag, In flag required_flags -> In flag (map fst occurrences).
Proof.
  intros recognise int_of_string argv occurrences args R P.
  split; [reflexivity|]. by apply (accepted_required_occur recognise int_of_string argv _ args).
Qed.

Lemma required_options_occur_witness :
  required_flags
  = ["--project-path"; "--service-name"; "--framework"; "--port"; "--venv-name"]
  /\ forall flag, In flag required_flags -> In flag (map fst sample_occurrences).
Proof.
  apply (required_options_occur sample_recognise sample_int sample_argv
           sample_occurrences sample_args).
  - reflexivity.
  - reflexivity.
Defined.

(** X13.  When an option occurs more than once the last occurrence
    decides: the service name, the framework and the domain are the
    argument of the last occurrence, and the port is that argument read as
    a number. *)
Theorem last_occurrence_decides :
  forall recognise int_of_string argv flag v pre post args,
    recognise argv = inl (pre ++ (flag, Some v) :: post) ->
    ~ In flag (map fst post) ->
    Cli.parse_args recognise int_of_string argv = inl args ->
    (flag = "--service-name" -> args.(Cli.service_name) = v)
    /\ (flag = "--framework" -> args.(Cli.framework) = v)
    /\ (flag = "--domain" -> args.(Cli.domain) = Some v)
    /\ (flag = "--port" -> int_of_string v = Some args.(Cli.port)).
Proof.
  intros recognise int_of_string argv flag v pre post args R Hpost P.
  destruct (parse_args_inv recognise int_of_string argv args P)
    as (occs & ns & R' & T & F).
  rewrite R in R'. injection R' as <-.
  assert (forall a, In a Cli.arguments -> a.(Cli.option_string) = flag ->
            exists w, stored int_of_string a (Some v) = Some w
                      /\ ns !! a.(Cli.dest) = Some w) as Hlast.
  { intros a Ha <-.
    exact (take_actions_last int_of_string a pre (Some v) post _ ns Ha Hpost T). }
  repeat split; intros ->.
  - destruct (Hlast (Cli.add_argument "--service-name" "service_name" true
                       (Cli.store false) None NoneV)) as (w & S & L);
      [vm_compute; tauto|done|].
    apply finish_fields in F. simpl in L. unfold Cli.attr_str in F.
    rewrite !L in F. unfold stored in S. simpl in S. injection S as <-.
    intuition congruence.
  - destruct (Hlast (Cli.add_argument "--framework" "framework" true
                       (Cli.store false) (Some Cli.framework_choices) NoneV))
      as (w & S & L); [vm_compute; tauto|done|].
    apply finish_fields in F. simpl in L. unfold Cli.attr_str in F.
    rewrite !L in F. unfold stored in S. cbn [Cli.act Cli.add_argument] in S.
    destruct (Cli.in_choices _ v); [|done]. injection S as <-.
    intuition congruence.
  - destruct (Hlast (Cli.add_argument "--domain" "domain" false
                       (Cli.store false) None NoneV)) as (w & S & L);
      [vm_compute; tauto|done|].
    apply finish_fields in F. simpl in L. unfold Cli.attr_str in F.
    rewrite !L in F. unfold stored in S. simpl in S. injection S as <-.
    intuition congruence.
  - destruct (Hlast (Cli.add_argument "--port" "port" true
                       (Cli.store true) None NoneV)) as (w & S & L);
      [vm_compute; tauto|done|].
    apply finish_fields in F. simpl in L. unfold Cli.attr_int in F.
    rewrite !L in F. unfold stored in S. simpl in S.
    destruct (int_of_string v) as [n|]; [|done]. injection S as <-.
    intuition congruence.
Qed.

Lemma last_occurrence_decides_witness :
  ("--port" = "--service-name" -> sample_args.(Cli.service_name) = "8000")
  /\ ("--port" = "--framework" -> sample_args.(Cli.framework) = "8000")
  /\ ("--port" = "--domain" -> sample_args.(Cli.domain) = Some "8000")
  /\ ("--port" = "--port" -> sample_int "8000" = Some sample_args.(Cli.port)).
Proof.
  apply (last_occurrence_decides sample_recognise sample_int
           (["--port"; "80"] ++ sample_argv) "--port" "8000"
           (("--port", Some "80") :: take 3 sample_occurrences)
           (drop 4 sample_occurrences) sample_args).
  - reflexivity.
  - simpl. intros [H | [H | []]]; discriminate H.
  - reflexivity.
Defined.

(** X14.  A command line is accepted exactly when argparse recognises it,
    every occurrence is in order (a declared option; no argument for a
    switch; for a number option an argument that reads as a number; for the
    framework an argument among the choices) and all five required options
    occur.  When the occurrences are recognised and the command line is
    refused all the same, the exit status is 2. *)
Theorem command_line_accepted_iff :
  forall recognise int_of_string argv,
    ((exists args, Cli.parse_args recognise int_of_string argv = inl args)
     <-> exists occurrences,
           recognise argv = inl occurrences
           /\ forallb (acceptable int_of_string) occurrences = true
           /\ forall flag, In flag required_flags ->
                           In flag (map fst occurrences))
    /\ (forall occurrences status,
          recognise argv = inl occurrences ->
          Cli.parse_args recognise int_of_string argv = inr status ->
          status = 2).
Proof.
  intros recognise int_of_string argv. split; [split|].
  - intros [args P].
    destruct (parse_args_inv recognise int_of_string argv args P)
      as (occs & ns & R & T & F).
    exists occs. split; [done|]. split.
    + apply (take_actions_acceptable int_of_string occs Cli.defaults). eauto.
    + by apply (accepted_required_occur recognise int_of_string argv occs args).
  - intros (occs & R & A & Hreq).
    apply (take_actions_acceptable int_of_string occs Cli.defaults) in A as [ns T].
    unfold Cli.parse_args. rewrite R, T. unfold Cli.finish.
    destruct (final_text int_of_string
                (Cli.add_argument "--project-path" "project_path" true
                   (Cli.store false) None NoneV) occs ns) as [? E];
      [vm_compute; tauto|done|done|left; apply Hreq; vm_compute; tauto|];
      simpl in E; rewrite E; clear E.
    destruct (final_text int_of_string
                (Cli.add_argument "--service-name" "service_name" true
                   (Cli.store false) None NoneV) occs ns) as [? E];
      [vm_compute; tauto|done|done|left; apply Hreq; vm_compute; tauto|];
      simpl in E; rewrite E; clear E.
    destruct (final_text int_of_string
                (Cli.add_argument "--framework" "framework" true
                   (Cli.store false) (Some Cli.framework_choices) NoneV) occs ns)
      as [? E];
      [vm_compute; tauto|done|done|left; apply Hreq; vm_compute; tauto|];
      simpl in E; rewrite E; clear E.
    destruct (final_number int_of_string
                (Cli.add_argument "--port" "port" true (Cli.store true) None NoneV)
                occs ns) as [? E];
      [vm_compute; tauto|done|done|left; apply Hreq; vm_compute; tauto|];
      simpl in E; rewrite E; clear E.
    destruct (final_text int_of_string
                (Cli.add_argument "--venv-name" "venv_name" true
                   (Cli.store false) None NoneV) occs ns) as [? E];
      [vm_compute; tauto|done|done|left; apply Hreq; vm_compute; tauto|];
      simpl in E; rewrite E; clear E.
    destruct (final_number int_of_string
                (Cli.add_argument "--workers" "workers" false (Cli.store true)
                   None (Int 2)) occs ns) as [? E];
      [vm_compute; tauto|done|done|right; by eexists|];
      simpl in E; rewrite E; clear E.
    destruct (final_number int_of_string
                (Cli.add_argument "--timeout" "timeout" false (Cli.store true)
                   None (Int 120)) occs ns) as [? E];
      [vm_compute; tauto|done|done|right; by eexists|];
      simpl in E; rewrite E; clear E.
    destruct (final_text int_of_string
                (Cli.add_argument "--frontend-url-prefix" "frontend_url_prefix"
                   false (Cli.store false) None (Str "/")) occs ns) as [? E];
      [vm_compute; tauto|done|done|right; by eexists|];
      simpl in E; rewrite E; clear E.
    destruct (final_text int_of_string
                (Cli.add_argument "--api-url-prefix" "api_url_prefix"
                   false (Cli.store false) None (Str "/api")) occs ns) as [? E];
      [vm_compute; tauto|done|done|right; by eexists|];
      simpl in E; rewrite E; clear E.
    eauto.
  - intros occs status R. unfold Cli.parse_args. rewrite R.
    destruct (Cli.take_actions int_of_string Cli.defaults occs) as [ns|s] eqn:T.
    + unfold Cli.finish. repeat case_match; try done; by intros [= <-].
    + intros [= <-]. by apply (take_actions_status int_of_string occs Cli.defaults).
Qed.

Section Blaming.
Context {A B : Type}.



End Blaming.


Section Reports.
Variable h : Host.



Lemma emits_attempt_of ok args :
  (forall e, harmless e = true -> ok e = true) ->
  (forall argv check r, ok (Spawn argv check r) = true) ->
  (forall p a, ok (Input p a) = true) ->
  emits ok (Cli.attempt h args).
Proof.
  intros Hh Hs Hi.
  assert (forall line, ok (Print line) = true) as Hp by (intros; by apply Hh).
  unfold Cli.attempt.
  apply emits_bind; [by apply emits_cli_log|intros _].
  apply emits_bind; [by apply emits_check_dependencies|intros dependencies].
  destruct dependencies; cbn [negb]; [|apply emits_ret].
  apply emits_bind; [apply emits_ask|intros found].
  destruct found; cbn [negb]; [|cli_emits_tac].
  apply emits_bind; [by apply emits_cli_log|intros _].
  apply stops_emits. unfold Cli.deploy_and_report. apply stops_bind_l.
  eapply stops_weaken; [exact Hh|apply stops_deploy_api].
Qed.

End Reports.

Lemma last_of_its_kind {X} (ok : X -> bool) l : forall x pre y post,
  forallb ok l = true -> ok y = false ->
  l ++ [x] = pre ++ y :: post -> post = [] /\ x = y /\ pre = l.
Proof.
  induction l as [|a l IH]; intros x pre y post Hl Hy E.
  - destruct pre as [|p pre]; simpl in E.
    + by injection E as -> <-.
    + injection E as _ E. by destruct pre.
  - simpl in Hl. apply andb_true_iff in Hl as [Ha Hl].
    destruct pre as [|p pre]; simpl in E.
    + injection E as -> _. congruence.
    + injection E as <- E. destruct (IH _ _ _ _ Hl Hy E) as (-> & -> & ->). done.
Qed.


(** X16.  A traceback is printed only in verbose mode, and then only as the
    very last thing of the run, right after the line that reports the
    error. *)
Theorem traceback_only_when_verbose :
  forall h args t, exists new,
    snd (Cli.orchestrate h args t) = t ++ new
    /\ (args.(Cli.verbose) = false -> existsb is_traceback new = false)
    /\ (forall pre e post,
          new = pre ++ Traceback e :: post ->
          args.(Cli.verbose) = true /\ post = []
          /\ exists before,
               pre = before ++ [logged ("Error: " +:+ Cli.str_exception h e)]).
Proof.
  intros h args t.
  destruct (emits_attempt_of h (fun e => negb (is_traceback e)) args) with (t := t)
    as (n1 & E1 & F1); try done.
  { by intros []. }
  assert (existsb is_traceback n1 = false) as C1.
  { apply not_true_iff_false. intros (e & He & Hi)%existsb_exists.
    rewrite forallb_forall in F1. specialize (F1 e He). by rewrite Hi in F1. }
  unfold Cli.orchestrate, try_except.
  destruct (Cli.attempt h args t) as [[status|e0] t1]; simpl in E1; subst t1.
  - exists n1. split; [done|]. split; [done|].
    intros pre e post ->. rewrite existsb_app in C1. simpl in C1.
    by rewrite orb_true_r in C1.
  - rewrite report_error_run. exists (n1 ++ error_report h args e0).
    rewrite app_assoc. split; [done|]. unfold error_report.
    destruct (Cli.verbose args); split.
    + done.
    + intros pre e post E.
      change (n1 ++ [logged ("Error: " +:+ Cli.str_exception h e0); Traceback e0])
        with (n1 ++ [logged ("Error: " +:+ Cli.str_exception h e0)] ++ [Traceback e0]) in E.
      rewrite app_assoc in E.
      apply (last_of_its_kind (fun x => negb (is_traceback x))) in E
        as (-> & [= ->] & ->); [|by rewrite forallb_app, F1|done].
      split; [done|]. split; [done|]. by exists n1.
    + intros _. rewrite existsb_app, C1. done.
    + intros pre e post E. exfalso.
      assert (existsb is_traceback
                (n1 ++ [logged ("Error: " +:+ Cli.str_exception h e0)]) = false) as C.
      { by rewrite existsb_app, C1. }
      rewrite E, existsb_app in C. simpl in C. by rewrite orb_true_r in C.
Qed.
